(** * Native edit context adapter and debug contribution: model and properties

    The first part embeds [NativeEditContext] (the adapter between the
    editor's view model and the host [EditContext] surface); the second part
    embeds the registrations performed by [debug.contribution.ts].

    Numbers that the adapter manipulates are offsets, counts, line numbers
    and columns: they are modelled as [Z].  Strings are sequences of code
    units, modelled as [string].  Diagnostic [console.log] output is not part
    of the model.  Bounds computations ([_updateSelectionAndControlBounds],
    [_updateCharacterBounds]) work on floating point rectangles and are left
    out. *)

From Stdlib Require Import ZArith List Bool Lia.
From Stdlib Require Import Strings.String Strings.Ascii.
Import ListNotations.

Open Scope Z_scope.
Open Scope list_scope.

(** ** The pieces of the JavaScript string API used by the adapter *)

Module JS.

Definition LF : ascii := "010"%char.
Definition CR : ascii := "013"%char.

(** The one-character string ['\n']. *)
Definition NL : string := String LF EmptyString.

Definition MAX_SAFE_INTEGER : Z := 2 ^ 53 - 1.

Definition strlen (s : string) : Z := Z.of_nat (String.length s).

(** Index arguments of [substring] are clamped into [0 .. length]. *)
Definition clamp (len i : Z) : Z := Z.min (Z.max i 0) len.

(** [s.substring(start, end)]: both indices are clamped and, when
    [start > end], swapped. *)
Definition substring (s : string) (start end_ : Z) : string :=
  let len := strlen s in
  let a := clamp len start in
  let b := clamp len end_ in
  let from := Z.min a b in
  let to := Z.max a b in
  String.substring (Z.to_nat from) (Z.to_nat (to - from)) s.

(** [s.substring(start)]: the end index defaults to the length. *)
Definition substring_from (s : string) (start : Z) : string :=
  substring s start (strlen s).

(** [s.replace(/\r\n/g, '\n')]: a left-to-right scan, every match of the
    two code units CR LF is replaced and the scan resumes after it. *)
Fixpoint replace_crlf (s : string) : string :=
  match s with
  | EmptyString => EmptyString
  | String c1 tl =>
      match tl with
      | String c2 rest =>
          if (Ascii.eqb c1 CR && Ascii.eqb c2 LF)%bool
          then String LF (replace_crlf rest)
          else String c1 (replace_crlf tl)
      | EmptyString => String c1 EmptyString
      end
  end.

(** A number used as a condition: every integer but [0] is truthy. *)
Definition truthy (n : Z) : bool := negb (n =? 0).

Definition lower_ascii (c : ascii) : ascii :=
  let n := nat_of_ascii c in
  if ((65 <=? n)%nat && (n <=? 90)%nat)%bool then ascii_of_nat (n + 32) else c.

(** [s.toLowerCase()] on the ASCII labels the host reports. *)
Fixpoint toLowerCase (s : string) : string :=
  match s with
  | EmptyString => EmptyString
  | String c tl => String (lower_ascii c) (toLowerCase tl)
  end.

(** [parts.join(sep)]. *)
Fixpoint join (sep : string) (parts : list string) : string :=
  match parts with
  | [] => EmptyString
  | [p] => p
  | p :: rest => (p ++ sep ++ join sep rest)%string
  end.

(** The first [n] code units of a string, and the string without them. *)
Fixpoint take (n : nat) (s : string) : string :=
  match n, s with
  | S n', String c tl => String c (take n' tl)
  | _, _ => EmptyString
  end.

Fixpoint drop (n : nat) (s : string) : string :=
  match n, s with
  | S n', String _ tl => drop n' tl
  | _, _ => s
  end.

(** Does the string contain CR immediately followed by LF? *)
Fixpoint has_crlf (s : string) : bool :=
  match s with
  | EmptyString => false
  | String c1 tl =>
      match tl with
      | String c2 _ => ((Ascii.eqb c1 CR && Ascii.eqb c2 LF) || has_crlf tl)%bool
      | EmptyString => false
      end
  end.

End JS.

(** ** Data model of the adapter *)

Module NativeEditContext.

Record Position := mkPosition { lineNumber : Z; column : Z }.

(** Modelled from the spec: the [Range] class of the editor core is not
    part of these sources.  A range is a start and an end line/column pair;
    [fromPositions] builds the range between two positions and
    [setEndPosition] yields the range with the same start and the given
    end ("extends the composition range's end to the current cursor
    position"). *)
Record Range := mkRange {
  startLineNumber : Z;
  startColumn : Z;
  endLineNumber : Z;
  endColumn : Z
}.

Definition fromPositions (start end_ : Position) : Range :=
  mkRange start.(lineNumber) start.(column) end_.(lineNumber) end_.(column).

Definition setEndPosition (r : Range) (endLine endCol : Z) : Range :=
  mkRange r.(startLineNumber) r.(startColumn) endLine endCol.

Definition getStartPosition (r : Range) : Position :=
  mkPosition r.(startLineNumber) r.(startColumn).

Definition getEndPosition (r : Range) : Position :=
  mkPosition r.(endLineNumber) r.(endColumn).

(** Positions are ordered by line, then by column. *)
Definition isBeforeOrEqual (a b : Position) : bool :=
  (a.(lineNumber) <? b.(lineNumber))
  || ((a.(lineNumber) =? b.(lineNumber)) && (a.(column) <=? b.(column))).

Definition isBefore (a b : Position) : bool :=
  (a.(lineNumber) <? b.(lineNumber))
  || ((a.(lineNumber) =? b.(lineNumber)) && (a.(column) <? b.(column))).

Record EditContextState := mkEditContextState {
  content : string;
  selectionStartOffset : Z;
  selectionEndOffset : Z;
  rangeOfContent : Range
}.

Record ITypeData := mkTypeData {
  text : string;
  replacePrevCharCnt : Z;
  replaceNextCharCnt : Z;
  positionDelta : Z
}.

(** The payload of a [textupdate] event. *)
Record TextUpdateEvent := mkTextUpdate {
  e_text : string;
  updateRangeStart : Z;
  updateRangeEnd : Z
}.

(** One entry of [TextFormatUpdateEvent.getTextFormats()]. *)
Record TextFormat := mkTextFormat {
  rangeStart : Z;
  rangeEnd : Z;
  underlineStyle : string;
  underlineThickness : string
}.

Record IModelDeltaDecoration := mkDecoration {
  range : Range;
  description : string;
  inlineClassName : string
}.

Record ClipboardStoredMetadata := mkMetadata {
  version : Z;
  isFromEmptySelection : option bool;
  multicursorText : option (list string);
  mode : option string
}.

(** The result of [getDataToCopy] (the [html] part is not used here). *)
Record ClipboardDataToCopy := mkDataToCopy {
  d_isFromEmptySelection : bool;
  d_multicursorText : option (list string);
  d_text : string;
  d_mode : option string
}.

Inductive KeyCode := KEY_IN_COMPOSITION | Enter | KeyV | KeyX | OtherKey (code : Z).

Definition KeyCode_eqb (a b : KeyCode) : bool :=
  match a, b with
  | KEY_IN_COMPOSITION, KEY_IN_COMPOSITION => true
  | Enter, Enter => true
  | KeyV, KeyV => true
  | KeyX, KeyX => true
  | OtherKey x, OtherKey y => x =? y
  | _, _ => false
  end.

Record StandardKeyboardEvent := mkKeyboardEvent {
  keyCode : KeyCode;
  metaKey : bool
}.

(** What the collaborators of the adapter answer while one handler runs:
    the browser flag, the editor options, the view model, the text model,
    the host [EditContext], the clipboard service and the clipboard
    metadata registry. *)
Record Host := mkHost {
  isFirefox : bool;
  emptySelectionClipboard : bool;
  cursorPosition : Position;
  selection : Range;
  getLineMaxColumn : Z -> Z;
  getValueInRange : Range -> string;
  getOffsetAt : Position -> Z;
  getPositionAt : Z -> Position;
  deltaDecorations : list string -> list IModelDeltaDecoration -> list string;
  editContext_text : string;
  editContext_selectionStart : Z;
  editContext_selectionEnd : Z;
  clipboard_readText : string;
  registry_get : string -> option ClipboardStoredMetadata;
  dataToCopy : ClipboardDataToCopy
}.

(** Calls the adapter makes on its collaborators, in program order. *)
Inductive Call :=
| VC_type (t : string)
| VC_compositionType (t : string) (prev next delta : Z)
| VC_paste (t : string) (pasteOnNewLine : bool)
           (multicursor : option (list string)) (m : option string)
| VC_cut
| VC_emitKeyDown (e : StandardKeyboardEvent)
| VC_emitKeyUp (e : StandardKeyboardEvent)
| VC_compositionStart
| VC_compositionEnd
| VM_onCompositionStart
| VM_onCompositionEnd
| VM_setHasFocus (b : bool)
| Dom_focus
| Ev_stopPropagation
| Ev_preventDefault
| EC_updateText (rangeStart rangeEnd : Z) (t : string)
| EC_updateSelection (s e : Z)
| Clipboard_readText
| Clipboard_writeText (t : string)
| Registry_set (key : string) (data : ClipboardStoredMetadata)
| Registry_get (key : string)
| Model_deltaDecorations (old : list string) (new : list IModelDeltaDecoration).

(** The private fields of the adapter that its event handlers read and
    write. *)
Record Adapter := mkAdapter {
  _currentEditContextState : option EditContextState;
  _decorations : list string;
  _compositionRange : option Range;
  _hasFocus : bool
}.

(** The adapter right after construction. *)
Definition initial : Adapter :=
  mkAdapter None [] None false.

(** ** Handlers as state transformers that log their calls *)

Definition M (A : Type) : Type := Adapter -> A * Adapter * list Call.

Definition ret {A} (a : A) : M A := fun s => (a, s, []).

Definition bind {A B} (m : M A) (k : A -> M B) : M B :=
  fun s =>
    let '(a, s1, t1) := m s in
    let '(b, s2, t2) := k a s1 in
    (b, s2, t1 ++ t2).

Definition call (c : Call) : M unit := fun s => (tt, s, [c]).
Definition get : M Adapter := fun s => (s, s, []).
Definition put (s' : Adapter) : M unit := fun _ => (tt, s', []).

Definition when (b : bool) (m : M unit) : M unit := if b then m else ret tt.

Declare Scope handler_scope.
Delimit Scope handler_scope with handler.
Notation "x <- m ;; k" := (bind m (fun x => k))
  (at level 61, m at next level, right associativity) : handler_scope.
Notation "m ;; k" := (bind m (fun _ => k))
  (at level 61, right associativity) : handler_scope.
Open Scope handler_scope.

Definition state_of {A} (r : A * Adapter * list Call) : Adapter := snd (fst r).
Definition calls_of {A} (r : A * Adapter * list Call) : list Call := snd r.

Definition set_currentEditContextState (v : option EditContextState) : M unit :=
  s <- get ;;
  put (mkAdapter v s.(_decorations) s.(_compositionRange) s.(_hasFocus)).

Definition set_decorations (v : list string) : M unit :=
  s <- get ;;
  put (mkAdapter s.(_currentEditContextState) v s.(_compositionRange) s.(_hasFocus)).

Definition set_compositionRange (v : option Range) : M unit :=
  s <- get ;;
  put (mkAdapter s.(_currentEditContextState) s.(_decorations) v s.(_hasFocus)).

Definition set_hasFocus (v : bool) : M unit :=
  s <- get ;;
  put (mkAdapter s.(_currentEditContextState) s.(_decorations) s.(_compositionRange) v).

(** [_onType] *)
Definition _onType (typeInput : ITypeData) : M unit :=
  if (JS.truthy typeInput.(replacePrevCharCnt)
      || JS.truthy typeInput.(replaceNextCharCnt)
      || JS.truthy typeInput.(positionDelta))%bool
  then call (VC_compositionType typeInput.(text) typeInput.(replacePrevCharCnt)
               typeInput.(replaceNextCharCnt) typeInput.(positionDelta))
  else call (VC_type typeInput.(text)).

(** [_emitAddNewLineEvent] *)
Definition _emitAddNewLineEvent (host : Host) : M unit :=
  let textBeforeSelection :=
    JS.substring host.(editContext_text) 0 host.(editContext_selectionStart) in
  let textAfterSelection :=
    JS.substring_from host.(editContext_text) host.(editContext_selectionEnd) in
  let textAfterAddingNewLine :=
    (textBeforeSelection ++ JS.NL ++ textAfterSelection)%string in
  call (EC_updateText 0 JS.MAX_SAFE_INTEGER textAfterAddingNewLine) ;;
  _onType (mkTypeData JS.NL 0 0 0).

(** The [ITypeData] that [_emitTypeEvent] builds from the snapshot and the
    event, statement by statement. *)
Definition typeInput_of (st : EditContextState) (e : TextUpdateEvent) : ITypeData :=
  let replaceNextCharCnt :=
    if e.(updateRangeEnd) >? st.(selectionEndOffset)
    then e.(updateRangeEnd) - st.(selectionEndOffset) else 0 in
  let replacePrevCharCnt :=
    if e.(updateRangeStart) <? st.(selectionStartOffset)
    then st.(selectionStartOffset) - e.(updateRangeStart) else 0 in
  let text := EmptyString in
  let text :=
    if st.(selectionStartOffset) <? e.(updateRangeStart)
    then (text ++ JS.substring st.(content) st.(selectionStartOffset) e.(updateRangeStart))%string
    else text in
  let text := (text ++ e.(e_text))%string in
  let text :=
    if st.(selectionEndOffset) >? e.(updateRangeEnd)
    then (text ++ JS.substring st.(content) e.(updateRangeEnd) st.(selectionEndOffset))%string
    else text in
  mkTypeData text replacePrevCharCnt replaceNextCharCnt 0.

(** [_emitTypeEvent] *)
Definition _emitTypeEvent (e : TextUpdateEvent) : M unit :=
  s <- get ;;
  match s.(_currentEditContextState) with
  | None => ret tt
  | Some st => _onType (typeInput_of st e)
  end.

(** [_setHasFocus].  The DOM [focus()] call can make the host deliver the
    focus event at once; its listener is [_setHasFocus(true)] again, which
    by then finds the flag already stored and takes the no-change branch. *)
Definition _setHasFocus (newHasFocus : bool) : M unit :=
  s <- get ;;
  if Bool.eqb s.(_hasFocus) newHasFocus then ret tt
  else
    set_hasFocus newHasFocus ;;
    if newHasFocus
    then call Dom_focus ;; call (VM_setHasFocus true)
    else call (VM_setHasFocus false).

(** The loop of [_getEditContextState] that sums up the end offset; [n]
    counts the remaining iterations of [for (i = start; i <= end; i++)]. *)
Fixpoint selectionEndOffset_loop (host : Host) (sel : Range) (n : nat) (i acc : Z) : Z :=
  match n with
  | O => acc
  | S n' =>
      let acc' :=
        if i =? sel.(endLineNumber)
        then acc + (sel.(endColumn) - 1)
        else acc + host.(getLineMaxColumn) i in
      selectionEndOffset_loop host sel n' (i + 1) acc'
  end.

(** [_getEditContextState] *)
Definition _getEditContextState (host : Host) : EditContextState :=
  let selection := host.(selection) in
  let selectionStartOffset := selection.(startColumn) - 1 in
  let selectionEndOffset :=
    selectionEndOffset_loop host selection
      (Z.to_nat (selection.(endLineNumber) - selection.(startLineNumber) + 1))
      selection.(startLineNumber) 0 in
  let endColumnOfEndLineNumber := host.(getLineMaxColumn) selection.(endLineNumber) in
  let rangeOfContent :=
    mkRange selection.(startLineNumber) 1 selection.(endLineNumber) endColumnOfEndLineNumber in
  let content := host.(getValueInRange) rangeOfContent in
  mkEditContextState content selectionStartOffset selectionEndOffset rangeOfContent.

(** [_updateEditContext], the part of [prepareRender] that captures the
    snapshot and mirrors it into the host surface. *)
Definition _updateEditContext (host : Host) : M unit :=
  let st := _getEditContextState host in
  set_currentEditContextState (Some st) ;;
  call (EC_updateText 0 JS.MAX_SAFE_INTEGER st.(content)) ;;
  call (EC_updateSelection st.(selectionStartOffset) st.(selectionEndOffset)).

Definition decoration_of (host : Host) (rangeOfEditContextText : Range) (f : TextFormat)
  : IModelDeltaDecoration :=
  let offsetOfEditContextText := host.(getOffsetAt) (getStartPosition rangeOfEditContextText) in
  let startPositionOfDecoration := host.(getPositionAt) (offsetOfEditContextText + f.(rangeStart)) in
  let endPositionOfDecoration := host.(getPositionAt) (offsetOfEditContextText + f.(rangeEnd)) in
  let decorationRange := fromPositions startPositionOfDecoration endPositionOfDecoration in
  let classNames :=
    [ "ime"%string;
      ("underline-style-" ++ JS.toLowerCase f.(underlineStyle))%string;
      ("underline-thickness-" ++ JS.toLowerCase f.(underlineThickness))%string ] in
  mkDecoration decorationRange "textFormatDecoration" (JS.join " " classNames).

(** [_handleTextFormatUpdate] *)
Definition _handleTextFormatUpdate (host : Host) (formats : list TextFormat) : M unit :=
  s <- get ;;
  match s.(_currentEditContextState) with
  | None => ret tt
  | Some st =>
      let decorations := map (decoration_of host st.(rangeOfContent)) formats in
      call (Model_deltaDecorations s.(_decorations) decorations) ;;
      set_decorations (host.(deltaDecorations) s.(_decorations) decorations)
  end.

(** [_ensureClipboardGetsEditorSelection] *)
Definition _ensureClipboardGetsEditorSelection (host : Host) : M unit :=
  let dataToCopy := host.(dataToCopy) in
  let storedMetadata :=
    mkMetadata 1 (Some dataToCopy.(d_isFromEmptySelection))
      dataToCopy.(d_multicursorText) dataToCopy.(d_mode) in
  call (Registry_set
          (if host.(isFirefox) then JS.replace_crlf dataToCopy.(d_text) else dataToCopy.(d_text))
          storedMetadata) ;;
  call (Clipboard_writeText dataToCopy.(d_text)).

(** The part of the [keydown] listener that handles paste, after
    [readText] has resolved to [clipboardText]. *)
Definition paste_clipboardText (host : Host) (clipboardText : string) : M unit :=
  if String.eqb clipboardText EmptyString then ret tt
  else
    call (Registry_get clipboardText) ;;
    let metadata := host.(registry_get) clipboardText in
    let '(pasteOnNewLine, multicursorText, mode) :=
      match metadata with
      | Some metadata =>
          ((host.(emptySelectionClipboard)
            && match metadata.(isFromEmptySelection) with Some b => b | None => false end)%bool,
           metadata.(multicursorText),
           metadata.(mode))
      | None => (false, None, None)
      end in
    call (VC_paste clipboardText pasteOnNewLine multicursorText mode).

(** The [keydown] listener.  The listener is asynchronous: what follows
    [await readText()] runs once the clipboard text is available, before
    any later event handler is modelled. *)
Definition onKeyDown (host : Host) (e : StandardKeyboardEvent) : M unit :=
  when (KeyCode_eqb e.(keyCode) KEY_IN_COMPOSITION) (call Ev_stopPropagation) ;;
  when (KeyCode_eqb e.(keyCode) Enter) (_emitAddNewLineEvent host) ;;
  when (e.(metaKey) && KeyCode_eqb e.(keyCode) KeyV)
    (call Ev_preventDefault ;;
     call Clipboard_readText ;;
     paste_clipboardText host host.(clipboard_readText)) ;;
  when (e.(metaKey) && KeyCode_eqb e.(keyCode) KeyX)
    (_ensureClipboardGetsEditorSelection host ;;
     call VC_cut) ;;
  call (VC_emitKeyDown e).

Definition onKeyUp (e : StandardKeyboardEvent) : M unit :=
  call (VC_emitKeyUp e).

(** The [textupdate] listener. *)
Definition onTextUpdate (host : Host) (e : TextUpdateEvent) : M unit :=
  s <- get ;;
  match s.(_compositionRange) with
  | Some r =>
      let position := host.(cursorPosition) in
      set_compositionRange (Some (setEndPosition r position.(lineNumber) position.(column)))
  | None => ret tt
  end ;;
  _emitTypeEvent e.

(** The [compositionstart] listener. *)
Definition onCompositionStart (host : Host) : M unit :=
  let position := host.(cursorPosition) in
  set_compositionRange (Some (fromPositions position position)) ;;
  call VC_compositionStart ;;
  call VM_onCompositionStart.

(** The [compositionend] listener. *)
Definition onCompositionEnd : M unit :=
  set_compositionRange None ;;
  call VC_compositionEnd ;;
  call VM_onCompositionEnd.

(** Events delivered to the adapter; [PrepareRender] is the render pass. *)
Inductive Event :=
| Focus
| Blur
| Copy
| KeyDown (e : StandardKeyboardEvent)
| KeyUp (e : StandardKeyboardEvent)
| TextUpdate (e : TextUpdateEvent)
| CompositionStart
| CompositionEnd
| TextFormatUpdate (formats : list TextFormat)
| PrepareRender.

Definition handle (host : Host) (ev : Event) : M unit :=
  match ev with
  | Focus => _setHasFocus true
  | Blur => _setHasFocus false
  | Copy => _ensureClipboardGetsEditorSelection host
  | KeyDown e => onKeyDown host e
  | KeyUp e => onKeyUp e
  | TextUpdate e => onTextUpdate host e
  | CompositionStart => onCompositionStart host
  | CompositionEnd => onCompositionEnd
  | TextFormatUpdate formats => _handleTextFormatUpdate host formats
  | PrepareRender => _updateEditContext host
  end.

(** Events are handled one at a time, in delivery order; each comes with
    what the collaborators answer at that time. *)
Fixpoint run (evs : list (Host * Event)) : M unit :=
  match evs with
  | [] => ret tt
  | (host, ev) :: rest => handle host ev ;; run rest
  end.

(** The adapter states reached after each event of a sequence. *)
Fixpoint states_after (evs : list (Host * Event)) (s : Adapter) : list Adapter :=
  match evs with
  | [] => []
  | (host, ev) :: rest =>
      let s' := state_of (handle host ev s) in
      s' :: states_after rest s'
  end.

(** ** What the specification says [_emitTypeEvent] derives *)

(** The [TypeInput] of the specification: the counts are
    [max(0, selectionStartOffset - updateRangeStart)] and
    [max(0, updateRangeEnd - selectionEndOffset)], the text is the snapshot
    content between [selectionStartOffset] and [updateRangeStart], the
    event's text, and the snapshot content between [updateRangeEnd] and
    [selectionEndOffset]. *)
Definition typeInput_spec (st : EditContextState) (e : TextUpdateEvent) : ITypeData :=
  let prefixSlice :=
    if st.(selectionStartOffset) <? e.(updateRangeStart)
    then JS.substring st.(content) st.(selectionStartOffset) e.(updateRangeStart)
    else EmptyString in
  let suffixSlice :=
    if e.(updateRangeEnd) <? st.(selectionEndOffset)
    then JS.substring st.(content) e.(updateRangeEnd) st.(selectionEndOffset)
    else EmptyString in
  mkTypeData (prefixSlice ++ e.(e_text) ++ suffixSlice)%string
    (Z.max 0 (st.(selectionStartOffset) - e.(updateRangeStart)))
    (Z.max 0 (e.(updateRangeEnd) - st.(selectionEndOffset)))
    0.

(** ** Observations on logged calls and on event sequences *)

Definition is_VM_setHasFocus (c : Call) : bool :=
  match c with VM_setHasFocus _ => true | _ => false end.

Definition is_Dom_focus (c : Call) : bool :=
  match c with Dom_focus => true | _ => false end.

Definition is_VC_paste (c : Call) : bool :=
  match c with VC_paste _ _ _ _ => true | _ => false end.

Definition is_Registry_get (c : Call) : bool :=
  match c with Registry_get _ => true | _ => false end.

Definition count (p : Call -> bool) (calls : list Call) : nat :=
  List.length (filter p calls).

(** The keys under which clipboard metadata was stored. *)
Definition stored_keys (calls : list Call) : list string :=
  flat_map (fun c => match c with Registry_set k _ => [k] | _ => [] end) calls.

(** The texts handed to the clipboard service. *)
Definition written_texts (calls : list Call) : list string :=
  flat_map (fun c => match c with Clipboard_writeText t => [t] | _ => [] end) calls.

Definition textUpdates (ups : list (Host * TextUpdateEvent)) : list (Host * Event) :=
  map (fun u => (fst u, TextUpdate (snd u))) ups.

(** compositionstart, then the given text updates, then compositionend. *)
Definition compositionSequence (hostStart : Host) (ups : list (Host * TextUpdateEvent))
    (hostEnd : Host) : list (Host * Event) :=
  (hostStart, CompositionStart) :: textUpdates ups ++ [(hostEnd, CompositionEnd)].

Definition compositionEndPosition (s : Adapter) : option Position :=
  option_map getEndPosition s.(_compositionRange).

(** Each position is at or after the one before it, starting from [p]. *)
Fixpoint nondecreasing_from (p : Position) (l : list Position) : Prop :=
  match l with
  | [] => True
  | q :: l' => isBeforeOrEqual p q = true /\ nondecreasing_from q l'
  end.

(** The same for the recorded ends of a composition range, none of which
    may be missing. *)
Fixpoint ends_nondecreasing_from (p : Position) (l : list (option Position)) : Prop :=
  match l with
  | [] => True
  | Some q :: l' => isBeforeOrEqual p q = true /\ ends_nondecreasing_from q l'
  | None :: _ => False
  end.

(** The adapter with only its composition range replaced. *)
Definition with_compositionRange (v : option Range) (s : Adapter) : Adapter :=
  mkAdapter s.(_currentEditContextState) s.(_decorations) v s.(_hasFocus).

(** ** Concrete collaborators and inputs *)

Definition host_default : Host :=
  mkHost false false (mkPosition 1 1) (mkRange 1 1 1 1)
    (fun _ => 1) (fun _ => EmptyString) (fun _ => 0) (fun _ => mkPosition 1 1)
    (fun _ _ => []) EmptyString 0 0 EmptyString (fun _ => None)
    (mkDataToCopy false None EmptyString None).

(** A host whose primary cursor is at [p]. *)
Definition host_at (p : Position) : Host :=
  mkHost false false p (mkRange p.(lineNumber) p.(column) p.(lineNumber) p.(column))
    (fun _ => 1) (fun _ => EmptyString) (fun _ => 0) (fun _ => mkPosition 1 1)
    (fun _ _ => []) EmptyString 0 0 EmptyString (fun _ => None)
    (mkDataToCopy false None EmptyString None).

(** A host on the given browser whose selection copies to [t]. *)
Definition host_copying (firefox : bool) (t : string) : Host :=
  mkHost firefox false (mkPosition 1 1) (mkRange 1 1 1 1)
    (fun _ => 1) (fun _ => EmptyString) (fun _ => 0) (fun _ => mkPosition 1 1)
    (fun _ _ => []) EmptyString 0 0 EmptyString (fun _ => None)
    (mkDataToCopy false None t None).

(** A host whose input surface holds [t] with the selection [a .. b]. *)
Definition host_surface (t : string) (a b : Z) : Host :=
  mkHost false false (mkPosition 1 1) (mkRange 1 1 1 1)
    (fun _ => 1) (fun _ => EmptyString) (fun _ => 0) (fun _ => mkPosition 1 1)
    (fun _ _ => []) t a b EmptyString (fun _ => None)
    (mkDataToCopy false None EmptyString None).

(** A host whose clipboard holds [t], with no metadata stored for it. *)
Definition host_clipboard (t : string) : Host :=
  mkHost false false (mkPosition 1 1) (mkRange 1 1 1 1)
    (fun _ => 1) (fun _ => EmptyString) (fun _ => 0) (fun _ => mkPosition 1 1)
    (fun _ _ => []) EmptyString 0 0 t (fun _ => None)
    (mkDataToCopy false None EmptyString None).

(** The snapshot of the one-line content ["hello"], fully selected. *)
Definition snapshot_hello : EditContextState :=
  mkEditContextState "hello" 0 5 (mkRange 1 1 1 6).

Definition adapter_hello : Adapter :=
  mkAdapter (Some snapshot_hello) [] None false.

(** The text ["a\r\nb"]. *)
Definition text_a_crlf_b : string :=
  String "a" (String JS.CR (String JS.LF (String "b" EmptyString))).

(** The text ["ab\ncd"]. *)
Definition text_ab_nl_cd : string :=
  String "a" (String "b" (String JS.LF (String "c" (String "d" EmptyString)))).

(** ** Focus API *)




(** ** Further observations on logged calls and on event sequences *)

(** The values the view model was notified with, in order. *)
Definition focus_notifications (calls : list Call) : list bool :=
  flat_map (fun c => match c with VM_setHasFocus b => [b] | _ => [] end) calls.

(** Each value is the negation of the one before it, starting from [b]. *)
Fixpoint alternating_from (b : bool) (l : list bool) : Prop :=
  match l with
  | [] => True
  | x :: l' => x = negb b /\ alternating_from x l'
  end.

Definition is_VC_emitKeyDown (c : Call) : bool :=
  match c with VC_emitKeyDown _ => true | _ => false end.

Definition is_Ev_stopPropagation (c : Call) : bool :=
  match c with Ev_stopPropagation => true | _ => false end.

(** Calls that touch the clipboard service, the metadata registry, or ask
    the view controller to paste or cut. *)
Definition is_clipboard_related (c : Call) : bool :=
  match c with
  | Clipboard_readText | Clipboard_writeText _ | Registry_set _ _ | Registry_get _
  | VC_paste _ _ _ _ | VC_cut | Ev_preventDefault => true
  | _ => false
  end.

(** Calls that send an edit of the text to the view controller. *)
Definition is_edit (c : Call) : bool :=
  match c with
  | VC_type _ | VC_compositionType _ _ _ _ => true
  | _ => false
  end.

Definition is_PrepareRender (ev : Event) : bool :=
  match ev with PrepareRender => true | _ => false end.

Definition is_focus_event (ev : Event) : bool :=
  match ev with Focus | Blur => true | _ => false end.

Definition is_composition_related (ev : Event) : bool :=
  match ev with CompositionStart | CompositionEnd | TextUpdate _ => true | _ => false end.

Definition is_TextFormatUpdate (ev : Event) : bool :=
  match ev with TextFormatUpdate _ => true | _ => false end.

(** Key and copy events. *)
Definition is_key_or_copy (ev : Event) : bool :=
  match ev with KeyDown _ | KeyUp _ | Copy => true | _ => false end.

(** No event of the sequence is of the given kind. *)
Definition none_of (kind : Event -> bool) (evs : list (Host * Event)) : bool :=
  forallb (fun he => negb (kind (snd he))) evs.

Definition isSome {A} (o : option A) : bool :=
  match o with Some _ => true | None => false end.

(** Whether a composition is active after a sequence of events, judged from
    the events alone: the last compositionstart or compositionend decides. *)
Definition composing_after (evs : list (Host * Event)) (b : bool) : bool :=
  fold_left
    (fun acc he =>
       match snd he with
       | CompositionStart => true
       | CompositionEnd => false
       | _ => acc
       end) evs b.

(** The [n] line numbers from [first] on. *)
Definition lineNumbers (first : Z) (n : nat) : list Z :=
  map (fun k => first + Z.of_nat k) (seq 0 n).

Definition sumZ (l : list Z) : Z := fold_right Z.add 0 l.

Definition is_upper (c : ascii) : bool :=
  ((65 <=? nat_of_ascii c)%nat && (nat_of_ascii c <=? 90)%nat)%bool.

Fixpoint string_forallb (p : ascii -> bool) (s : string) : bool :=
  match s with
  | EmptyString => true
  | String c tl => (p c && string_forallb p tl)%bool
  end.

(** The two code units CR LF in front of a string. *)
Definition CRLF (s : string) : string := String JS.CR (String JS.LF s).

(** A host whose primary selection is [sel], over lines that all have the
    maximal column [maxColumn]. *)
Definition host_selecting (sel : Range) (maxColumn : Z) : Host :=
  mkHost false false (mkPosition sel.(endLineNumber) sel.(endColumn)) sel
    (fun _ => maxColumn) (fun _ => EmptyString) (fun _ => 0) (fun _ => mkPosition 1 1)
    (fun _ _ => []) EmptyString 0 0 EmptyString (fun _ => None)
    (mkDataToCopy false None EmptyString None).

(** A host with the given empty-selection option whose clipboard holds [t]
    and whose metadata registry answers with [lookup]. *)
Definition host_pasting (emptySelection : bool) (t : string)
    (lookup : string -> option ClipboardStoredMetadata) : Host :=
  mkHost false emptySelection (mkPosition 1 1) (mkRange 1 1 1 1)
    (fun _ => 1) (fun _ => EmptyString) (fun _ => 0) (fun _ => mkPosition 1 1)
    (fun _ _ => []) EmptyString 0 0 t lookup
    (mkDataToCopy false None EmptyString None).

(** A host that copies [t] from an empty selection, with multicursor text
    and mode. *)
Definition host_copying_line (firefox : bool) (t : string) : Host :=
  mkHost firefox true (mkPosition 1 1) (mkRange 1 1 1 1)
    (fun _ => 1) (fun _ => EmptyString) (fun _ => 0) (fun _ => mkPosition 1 1)
    (fun _ _ => []) EmptyString 0 0 EmptyString (fun _ => None)
    (mkDataToCopy true (Some [t]) t (Some "plaintext"%string)).

(** A registry that holds one entry. *)
Definition registry_with (key : string) (data : ClipboardStoredMetadata)
    : string -> option ClipboardStoredMetadata :=
  fun t => if String.eqb t key then Some data else None.

(** ** The keydown listener and a clipboard read that fails *)

(** The [keydown] listener with both ways
    [await this._clipboardService.readText()] can settle.  The read either
    resolves, to [host.(clipboard_readText)], or is rejected; nothing in the
    listener catches a rejected read, so the listener then ends at the
    [await]: neither the paste, nor the cut check, nor the forwarding of the
    key event that follow it are run. *)
Definition onKeyDown_settled (host : Host) (readRejected : bool)
    (e : StandardKeyboardEvent) : M unit :=
  when (KeyCode_eqb e.(keyCode) KEY_IN_COMPOSITION) (call Ev_stopPropagation) ;;
  when (KeyCode_eqb e.(keyCode) Enter) (_emitAddNewLineEvent host) ;;
  let afterPaste :=
    when (e.(metaKey) && KeyCode_eqb e.(keyCode) KeyX)
      (_ensureClipboardGetsEditorSelection host ;;
       call VC_cut) ;;
    call (VC_emitKeyDown e) in
  if (e.(metaKey) && KeyCode_eqb e.(keyCode) KeyV)%bool
  then
    call Ev_preventDefault ;;
    call Clipboard_readText ;;
    if readRejected then ret tt
    else
      paste_clipboardText host host.(clipboard_readText) ;;
      afterPaste
  else afterPaste.

End NativeEditContext.

(** ** The registrations of [debug.contribution.ts] *)

Module DebugContribution.

Inductive KeyCode := F5 | F9 | F10 | F11 | KEY_D | KEY_I.
Inductive KeyMod := CtrlCmd | Shift.

(** A keybinding such as [KeyMod.CtrlCmd | KeyMod.Shift | KeyCode.KEY_D].
    The numeric masks behind [KeyMod] and [KeyCode] are declared outside
    these sources; the bitwise or of modifier flags and one key code is
    kept as the set of flags and the key code. *)
Record Keybinding := mkKeybinding { ctrlCmd : bool; shift : bool; key : KeyCode }.

Definition KeyMod_eqb (a b : KeyMod) : bool :=
  match a, b with
  | CtrlCmd, CtrlCmd | Shift, Shift => true
  | _, _ => false
  end.

Definition chord (mods : list KeyMod) (k : KeyCode) : Keybinding :=
  mkKeybinding (existsb (KeyMod_eqb CtrlCmd) mods) (existsb (KeyMod_eqb Shift) mods) k.

Record IKeybindings := mkKeybindings { primary : Keybinding }.

(** The action classes the module refers to. *)
Inductive Action :=
| ToggleBreakpointAction
| SelectionToReplAction
| SelectionToWatchExpressionsAction
| RunToCursorAction
| OpenDebugViewletAction
| StartDebugAction
| StepOverDebugAction
| StepIntoDebugAction
| StepOutDebugAction
| RestartDebugAction
| StopDebugAction
| ContinueAction
| PauseAction
| ConfigureAction
| ToggleReplAction.

(** Identifiers: [debug.VIEWLET_ID], [debug.REPL_ID] and the static [ID]
    of an action class are constants declared outside these sources. *)
Inductive Id := VIEWLET_ID | REPL_ID | ActionID (a : Action).

(** A label is either [nls.localize(key, message)] or the static [LABEL]
    of an action class. *)
Inductive Label :=
| localize (nlsKey message : string)
| ActionLABEL (a : Action).

Definition ID (a : Action) : Id :=
  match a with
  | OpenDebugViewletAction => VIEWLET_ID
  | _ => ActionID a
  end.

Definition LABEL (a : Action) : Label :=
  match a with
  | OpenDebugViewletAction => localize "toggleDebugViewlet" "Show Debug"
  | _ => ActionLABEL a
  end.

Inductive ContextKey := EditorTextFocus.
Inductive ContextKeyName := CONTEXT_IN_DEBUG_MODE.

Inductive KbExpr :=
| KbExpr_has (k : ContextKeyName)
| KbExpr_not (k : ContextKeyName).

Inductive Weight := workbenchContrib (importance : Z).

Record EditorActionOptions := mkEditorActionOptions {
  context : ContextKey;
  ea_primary : Keybinding
}.

Record EditorActionDescriptor := mkEditorActionDescriptor {
  ea_ctor : Action;
  ea_id : Id;
  ea_label : Label;
  ea_options : option EditorActionOptions
}.

Record SyncActionDescriptor := mkSyncActionDescriptor {
  ctor : Action;
  id : Id;
  label : Label;
  keybindings : option IKeybindings;
  keybindingContext : option KbExpr;
  keybindingWeight : option Weight
}.

Record ViewletDescriptor := mkViewletDescriptor {
  v_moduleId : string;
  v_ctorName : string;
  v_id : Id;
  v_name : Label;
  v_cssClass : string;
  v_order : Z
}.

Record PanelDescriptor := mkPanelDescriptor {
  p_moduleId : string;
  p_ctorName : string;
  p_id : Id;
  p_name : Label;
  p_cssClass : string
}.

Inductive Contribution :=
| DebugEditorContribution
| DebugEditorModelManager
| DebugActionsWidget.

Inductive Service := IDebugService.
Inductive ServiceImpl := DebugService.

(** Modelled from the spec: the registries of the platform are not part of
    these sources.  Each one keeps the descriptors handed to it, in
    registration order, and the panel registry remembers the id given to
    [setDefaultPanelId]. *)
Record Registries := mkRegistries {
  editorContributions : list Contribution;
  editorActions : list EditorActionDescriptor;
  viewlets : list ViewletDescriptor;
  panels : list PanelDescriptor;
  defaultPanelId : option Id;
  workbenchActions : list (SyncActionDescriptor * Label);
  workbenchContributions : list Contribution;
  singletons : list (Service * ServiceImpl)
}.

Definition empty : Registries := mkRegistries [] [] [] [] None [] [] [].

Definition registerEditorContribution (c : Contribution) (r : Registries) : Registries :=
  mkRegistries (r.(editorContributions) ++ [c]) r.(editorActions) r.(viewlets) r.(panels)
    r.(defaultPanelId) r.(workbenchActions) r.(workbenchContributions) r.(singletons).

Definition registerEditorAction (d : EditorActionDescriptor) (r : Registries) : Registries :=
  mkRegistries r.(editorContributions) (r.(editorActions) ++ [d]) r.(viewlets) r.(panels)
    r.(defaultPanelId) r.(workbenchActions) r.(workbenchContributions) r.(singletons).

Definition registerViewlet (d : ViewletDescriptor) (r : Registries) : Registries :=
  mkRegistries r.(editorContributions) r.(editorActions) (r.(viewlets) ++ [d]) r.(panels)
    r.(defaultPanelId) r.(workbenchActions) r.(workbenchContributions) r.(singletons).

Definition registerPanel (d : PanelDescriptor) (r : Registries) : Registries :=
  mkRegistries r.(editorContributions) r.(editorActions) r.(viewlets) (r.(panels) ++ [d])
    r.(defaultPanelId) r.(workbenchActions) r.(workbenchContributions) r.(singletons).

Definition setDefaultPanelId (i : Id) (r : Registries) : Registries :=
  mkRegistries r.(editorContributions) r.(editorActions) r.(viewlets) r.(panels)
    (Some i) r.(workbenchActions) r.(workbenchContributions) r.(singletons).

Definition registerWorkbenchAction (d : SyncActionDescriptor) (category : Label)
    (r : Registries) : Registries :=
  mkRegistries r.(editorContributions) r.(editorActions) r.(viewlets) r.(panels)
    r.(defaultPanelId) (r.(workbenchActions) ++ [(d, category)])
    r.(workbenchContributions) r.(singletons).

Definition registerWorkbenchContribution (c : Contribution) (r : Registries) : Registries :=
  mkRegistries r.(editorContributions) r.(editorActions) r.(viewlets) r.(panels)
    r.(defaultPanelId) r.(workbenchActions) (r.(workbenchContributions) ++ [c])
    r.(singletons).

Definition registerSingleton (s : Service) (impl : ServiceImpl) (r : Registries) : Registries :=
  mkRegistries r.(editorContributions) r.(editorActions) r.(viewlets) r.(panels)
    r.(defaultPanelId) r.(workbenchActions) r.(workbenchContributions)
    (r.(singletons) ++ [(s, impl)]).

(** [new SyncActionDescriptor(ctor, ctor.ID, ctor.LABEL, ...)]; the
    trailing arguments are optional. *)
Definition descriptor (a : Action) (kb : option IKeybindings) (ctx : option KbExpr)
    (w : option Weight) : SyncActionDescriptor :=
  mkSyncActionDescriptor a (ID a) (LABEL a) kb ctx w.

Definition openViewletKb : IKeybindings :=
  mkKeybindings (chord [CtrlCmd; Shift] KEY_D).

Definition debugCategory : Label := localize "debugCategory" "Debug".

(** The statements of the module, top to bottom. *)
Definition statements : list (Registries -> Registries) :=
  [ registerEditorContribution DebugEditorContribution;
    registerEditorAction
      (mkEditorActionDescriptor ToggleBreakpointAction (ID ToggleBreakpointAction)
         (localize "toggleBreakpointAction" "Debug: Toggle Breakpoint")
         (Some (mkEditorActionOptions EditorTextFocus (chord [] F9))));
    registerEditorAction
      (mkEditorActionDescriptor SelectionToReplAction (ID SelectionToReplAction)
         (localize "debugEvaluate" "Debug: Evaluate") None);
    registerEditorAction
      (mkEditorActionDescriptor SelectionToWatchExpressionsAction
         (ID SelectionToWatchExpressionsAction)
         (localize "addToWatch" "Debug: Add to Watch") None);
    registerEditorAction
      (mkEditorActionDescriptor RunToCursorAction (ID RunToCursorAction)
         (localize "runToCursor" "Debug: Run to Cursor") None);
    registerViewlet
      (mkViewletDescriptor "vs/workbench/parts/debug/browser/debugViewlet" "DebugViewlet"
         VIEWLET_ID (localize "debug" "Debug") "debug" 40);
    registerPanel
      (mkPanelDescriptor "vs/workbench/parts/debug/browser/repl" "Repl"
         REPL_ID (localize "debugConsole" "DEBUG CONSOLE") "repl");
    setDefaultPanelId REPL_ID;
    registerWorkbenchAction
      (descriptor OpenDebugViewletAction (Some openViewletKb) None None)
      (localize "view" "View");
    registerWorkbenchContribution DebugEditorModelManager;
    registerWorkbenchContribution DebugActionsWidget;
    registerWorkbenchAction
      (descriptor StartDebugAction (Some (mkKeybindings (chord [] F5)))
         (Some (KbExpr_not CONTEXT_IN_DEBUG_MODE)) None)
      debugCategory;
    registerWorkbenchAction
      (descriptor StepOverDebugAction (Some (mkKeybindings (chord [] F10)))
         (Some (KbExpr_has CONTEXT_IN_DEBUG_MODE)) None)
      debugCategory;
    registerWorkbenchAction
      (descriptor StepIntoDebugAction (Some (mkKeybindings (chord [] F11)))
         (Some (KbExpr_has CONTEXT_IN_DEBUG_MODE)) (Some (workbenchContrib 1)))
      debugCategory;
    registerWorkbenchAction
      (descriptor StepOutDebugAction (Some (mkKeybindings (chord [Shift] F11)))
         (Some (KbExpr_has CONTEXT_IN_DEBUG_MODE)) None)
      debugCategory;
    registerWorkbenchAction
      (descriptor RestartDebugAction None None None)
      debugCategory;
    registerWorkbenchAction
      (descriptor StopDebugAction (Some (mkKeybindings (chord [Shift] F5)))
         (Some (KbExpr_has CONTEXT_IN_DEBUG_MODE)) None)
      debugCategory;
    registerWorkbenchAction
      (descriptor ContinueAction (Some (mkKeybindings (chord [] F5)))
         (Some (KbExpr_has CONTEXT_IN_DEBUG_MODE)) None)
      debugCategory;
    registerWorkbenchAction
      (descriptor PauseAction None None None)
      debugCategory;
    registerWorkbenchAction
      (descriptor ConfigureAction None None None)
      debugCategory;
    registerWorkbenchAction
      (descriptor ToggleReplAction (Some (mkKeybindings (chord [CtrlCmd; Shift] KEY_I)))
         None None)
      debugCategory;
    registerSingleton IDebugService DebugService ].

(** Loading the module runs its statements in order. *)
Definition load (r : Registries) : Registries :=
  fold_left (fun acc statement => statement acc) statements r.

(** The registries after the module has been loaded once at start-up. *)
Definition registered : Registries := load empty.

Definition Action_eqb (a b : Action) : bool :=
  match a, b with
  | ToggleBreakpointAction, ToggleBreakpointAction
  | SelectionToReplAction, SelectionToReplAction
  | SelectionToWatchExpressionsAction, SelectionToWatchExpressionsAction
  | RunToCursorAction, RunToCursorAction
  | OpenDebugViewletAction, OpenDebugViewletAction
  | StartDebugAction, StartDebugAction
  | StepOverDebugAction, StepOverDebugAction
  | StepIntoDebugAction, StepIntoDebugAction
  | StepOutDebugAction, StepOutDebugAction
  | RestartDebugAction, RestartDebugAction
  | StopDebugAction, StopDebugAction
  | ContinueAction, ContinueAction
  | PauseAction, PauseAction
  | ConfigureAction, ConfigureAction
  | ToggleReplAction, ToggleReplAction => true
  | _, _ => false
  end.

(** The nine debug-session actions and the console toggle. *)
Definition sessionActions : list Action :=
  [ StartDebugAction; StepOverDebugAction; StepIntoDebugAction; StepOutDebugAction;
    RestartDebugAction; StopDebugAction; ContinueAction; PauseAction; ConfigureAction ].

Definition sessionAndConsoleActions : list Action :=
  sessionActions ++ [ToggleReplAction].

Definition is_sessionOrConsole (a : Action) : bool :=
  existsb (Action_eqb a) sessionAndConsoleActions.

(** The registrations of the session actions and of the console toggle. *)
Definition sessionRegistrations (r : Registries) : list (SyncActionDescriptor * Label) :=
  filter (fun dc => is_sessionOrConsole (fst dc).(ctor)) r.(workbenchActions).

(** Is the registration conditioned on the debug-mode flag, negated for
    start and asserted for the others? *)
Definition conditionedOnDebugMode (d : SyncActionDescriptor) : bool :=
  match d.(ctor), d.(keybindingContext) with
  | StartDebugAction, Some (KbExpr_not CONTEXT_IN_DEBUG_MODE) => true
  | StartDebugAction, _ => false
  | _, Some (KbExpr_has CONTEXT_IN_DEBUG_MODE) => true
  | _, _ => false
  end.

(** The workbench actions registered with a keybinding. *)
Definition workbenchKeybindings (r : Registries) : list (Action * Keybinding) :=
  flat_map (fun dc =>
              match (fst dc).(keybindings) with
              | Some kb => [((fst dc).(ctor), kb.(primary))]
              | None => []
              end) r.(workbenchActions).



Definition contextOf (a : Action) (r : Registries) : option (option KbExpr) :=
  option_map (fun dc => (fst dc).(keybindingContext))
    (find (fun dc => Action_eqb (fst dc).(ctor) a) r.(workbenchActions)).

(** Modelled from the spec: [KbExpr] is declared outside these sources.  A
    registration without a context is always enabled; [KbExpr.has(flag)]
    holds while the debug-mode flag is set ("enabled only while debugging")
    and [KbExpr.not(flag)] while it is not ("enabled only when not already
    debugging"). *)
Definition enabled (inDebugMode : bool) (ctx : option KbExpr) : bool :=
  match ctx with
  | None => true
  | Some (KbExpr_has CONTEXT_IN_DEBUG_MODE) => inDebugMode
  | Some (KbExpr_not CONTEXT_IN_DEBUG_MODE) => negb inDebugMode
  end.

(** The action classes of all registered editor and workbench actions. *)
Definition registeredActions (r : Registries) : list Action :=
  map ea_ctor r.(editorActions) ++ map (fun dc => (fst dc).(ctor)) r.(workbenchActions).

End DebugContribution.

(** ** Facts about the string operations *)

Module JSFacts.
Import JS.

Lemma substring_take_drop (n m : nat) (s : string) :
  String.substring n m s = take m (drop n s).
Proof.
  revert m s. induction n as [|n IH]; intros m s.
  - revert s. induction m as [|m IHm]; intros [|c s]; simpl; try reflexivity.
    now rewrite IHm.
  - destruct s as [|c s]; simpl.
    + now destruct m.
    + apply IH.
Qed.

Lemma take_length_app (p q : string) :
  take (String.length p) (p ++ q)%string = p.
Proof.
  induction p as [|c p IH]; simpl.
  - now destruct q.
  - now rewrite IH.
Qed.

Lemma drop_length_app (p q : string) :
  drop (String.length p) (p ++ q)%string = q.
Proof. induction p as [|c p IH]; simpl; [now destruct q | exact IH]. Qed.

Lemma take_all (s : string) : take (String.length s) s = s.
Proof. induction s as [|c s IH]; simpl; [reflexivity | now rewrite IH]. Qed.

Lemma length_drop (n : nat) (s : string) :
  String.length (drop n s) = (String.length s - n)%nat.
Proof.
  revert s. induction n as [|n IH]; intros [|c s]; simpl; try reflexivity.
  apply IH.
Qed.

Lemma length_app (p q : string) :
  String.length (p ++ q)%string = (String.length p + String.length q)%nat.
Proof. induction p as [|c p IH]; simpl; [reflexivity | now rewrite IH]. Qed.

Lemma app_assoc (p q r : string) :
  ((p ++ q) ++ r)%string = (p ++ (q ++ r))%string.
Proof. induction p as [|c p IH]; simpl; [reflexivity | now rewrite IH]. Qed.

Lemma app_empty_r (p : string) : (p ++ EmptyString)%string = p.
Proof. induction p as [|c p IH]; simpl; [reflexivity | now rewrite IH]. Qed.

Lemma clamp_range (len i : Z) : 0 <= len -> 0 <= clamp len i <= len.
Proof. unfold clamp. lia. Qed.

Lemma clamp_id (len i : Z) : 0 <= i <= len -> clamp len i = i.
Proof. unfold clamp. lia. Qed.

Lemma strlen_nonneg (s : string) : 0 <= strlen s.
Proof. unfold strlen. lia. Qed.

(** [s.substring(0, i)] keeps the first [i] code units (after clamping). *)
Lemma substring_0 (s : string) (i : Z) :
  substring s 0 i = take (Z.to_nat (clamp (strlen s) i)) s.
Proof.
  unfold substring. rewrite substring_take_drop.
  pose proof (strlen_nonneg s) as Hlen.
  pose proof (clamp_range (strlen s) i Hlen) as Hi.
  rewrite (clamp_id (strlen s) 0) by lia.
  rewrite Z.min_l, Z.max_r by lia.
  simpl. now rewrite Z.sub_0_r.
Qed.

(** [s.substring(i)] drops the first [i] code units (after clamping). *)
Lemma substring_from_drop (s : string) (i : Z) :
  substring_from s i = drop (Z.to_nat (clamp (strlen s) i)) s.
Proof.
  unfold substring_from, substring. rewrite substring_take_drop.
  pose proof (strlen_nonneg s) as Hlen.
  pose proof (clamp_range (strlen s) i Hlen) as Hi.
  rewrite (clamp_id (strlen s) (strlen s)) by lia.
  rewrite Z.min_l, Z.max_r by lia.
  set (n := Z.to_nat (clamp (strlen s) i)).
  replace (Z.to_nat (strlen s - clamp (strlen s) i))
    with (String.length (drop n s)).
  - apply take_all.
  - rewrite length_drop. unfold n, strlen in *. lia.
Qed.

(** For in-range, ordered indices [s.substring(a, b)] is the [b - a] code
    units that follow the first [a]. *)
Lemma substring_ordered (s : string) (a b : Z) :
  0 <= a <= b -> b <= strlen s ->
  substring s a b = take (Z.to_nat (b - a)) (drop (Z.to_nat a) s).
Proof.
  intros Hab Hb. unfold substring. rewrite substring_take_drop.
  rewrite !clamp_id by lia.
  now rewrite Z.min_l, Z.max_r by lia.
Qed.

(** The middle part of a three-way split is what [substring] returns. *)
Lemma substring_middle (p m q : string) :
  substring (p ++ m ++ q) (strlen p) (strlen p + strlen m) = m.
Proof.
  pose proof (strlen_nonneg p). pose proof (strlen_nonneg m).
  pose proof (strlen_nonneg q).
  rewrite substring_ordered.
  - unfold strlen. rewrite Nat2Z.id.
    rewrite drop_length_app.
    replace (Z.to_nat _) with (String.length m) by lia.
    apply take_length_app.
  - lia.
  - unfold strlen in *. rewrite !length_app. lia.
Qed.

(** A string without CR LF is left alone by the replacement. *)
Lemma replace_crlf_without_crlf (s : string) :
  has_crlf s = false -> replace_crlf s = s.
Proof.
  induction s as [|c1 tl IH]; [reflexivity|].
  destruct tl as [|c2 rest]; [reflexivity|].
  intros H. change (has_crlf (String c1 (String c2 rest)))
    with ((Ascii.eqb c1 CR && Ascii.eqb c2 LF) || has_crlf (String c2 rest))%bool in H.
  apply orb_false_iff in H as [Hm Htl].
  change (replace_crlf (String c1 (String c2 rest)))
    with (if (Ascii.eqb c1 CR && Ascii.eqb c2 LF)%bool
          then String LF (replace_crlf rest)
          else String c1 (replace_crlf (String c2 rest))).
  rewrite Hm. now rewrite IH.
Qed.

Lemma replace_crlf_cons_crlf (s : string) :
  replace_crlf (String CR (String LF s)) = String LF (replace_crlf s).
Proof. reflexivity. Qed.

(** Every CR LF is replaced: the scan of the part before a CR LF is not
    affected by it, the pair becomes one LF, and the scan resumes. *)
Lemma replace_crlf_step (c1 c2 : ascii) (rest : string) :
  replace_crlf (String c1 (String c2 rest))
  = if (Ascii.eqb c1 CR && Ascii.eqb c2 LF)%bool
    then String LF (replace_crlf rest)
    else String c1 (replace_crlf (String c2 rest)).
Proof. reflexivity. Qed.

(** Every CR LF is replaced: the scan of the part before a CR LF is not
    affected by it, the pair becomes one LF, and the scan resumes behind
    it.  The induction carries the statement for a string and for the
    string with one more code unit in front, since the scan moves by one
    or by two code units. *)
Lemma replace_crlf_app_crlf_aux (s2 s1 : string) :
  replace_crlf (s1 ++ String CR (String LF s2))
  = (replace_crlf s1 ++ String LF (replace_crlf s2))%string
  /\ forall c,
      replace_crlf (String c s1 ++ String CR (String LF s2))
      = (replace_crlf (String c s1) ++ String LF (replace_crlf s2))%string.
Proof.
  induction s1 as [|c1 tl [IH0 IH1]].
  - split; [reflexivity|]. intros c.
    change (String c EmptyString ++ String CR (String LF s2))%string
      with (String c (String CR (String LF s2))).
    rewrite replace_crlf_step.
    change (Ascii.eqb CR LF) with false. rewrite andb_false_r.
    reflexivity.
  - split; [apply IH1|]. intros c.
    change (String c (String c1 tl) ++ String CR (String LF s2))%string
      with (String c (String c1 (tl ++ String CR (String LF s2)))).
    rewrite !replace_crlf_step.
    destruct (Ascii.eqb c CR && Ascii.eqb c1 LF)%bool.
    + rewrite IH0. reflexivity.
    + change (String c1 (tl ++ String CR (String LF s2)))
        with (String c1 tl ++ String CR (String LF s2))%string.
      rewrite IH1. reflexivity.
Qed.

Lemma replace_crlf_app_crlf (s1 s2 : string) :
  replace_crlf (s1 ++ String CR (String LF s2))
  = (replace_crlf s1 ++ String LF (replace_crlf s2))%string.
Proof. apply replace_crlf_app_crlf_aux. Qed.

(** The replacement never makes the text longer. *)
Lemma replace_crlf_length_aux (s : string) :
  (String.length (replace_crlf s) <= String.length s)%nat
  /\ forall c, (String.length (replace_crlf (String c s)) <= S (String.length s))%nat.
Proof.
  induction s as [|c1 tl [IH0 IH1]].
  - split; [apply Nat.le_refl|]. intros c. apply Nat.le_refl.
  - split; [apply IH1|]. intros c. rewrite replace_crlf_step.
    destruct (Ascii.eqb c CR && Ascii.eqb c1 LF)%bool; simpl.
    + lia.
    + specialize (IH1 c1). simpl in IH1. lia.
Qed.

End JSFacts.


(** ** Properties of the adapter *)

Import NativeEditContext.

(** The state after a sequence of two handlers. *)
Lemma bind_state {A B} (m : M A) (k : A -> M B) (s : Adapter) :
  state_of (bind m k s) = state_of (k (fst (fst (m s))) (state_of (m s))).
Proof.
  unfold bind, state_of.
  destruct (m s) as [[a s1] t1]. simpl.
  destruct (k a s1) as [[b s2] t2]. reflexivity.
Qed.

(** [_onType] touches no field of the adapter and does not read any. *)
Lemma onType_state (typeInput : ITypeData) (s : Adapter) :
  state_of (_onType typeInput s) = s.
Proof. unfold _onType. now destruct (_ || _ || _)%bool. Qed.

Lemma onType_calls_any_state (typeInput : ITypeData) (s s' : Adapter) :
  calls_of (_onType typeInput s) = calls_of (_onType typeInput s').
Proof. unfold _onType. now destruct (_ || _ || _)%bool. Qed.

Lemma truthy_false (n : Z) : JS.truthy n = false <-> n = 0.
Proof.
  unfold JS.truthy. destruct (Z.eqb_spec n 0); simpl; split; congruence.
Qed.

Lemma truthy_true (n : Z) : JS.truthy n = true <-> n <> 0.
Proof.
  unfold JS.truthy. destruct (Z.eqb_spec n 0); simpl; split; congruence.
Qed.

(** C5: [_onType] issues exactly one call to the view controller and leaves
    the adapter as it was: [compositionType] with the text and the three
    numbers when any of [replacePrevCharCnt], [replaceNextCharCnt],
    [positionDelta] is nonzero, and [type] with the text when all three are
    zero. *)
Theorem onType_dispatch (typeInput : ITypeData) (s : Adapter) :
  state_of (_onType typeInput s) = s
  /\ (typeInput.(replacePrevCharCnt) <> 0
      \/ typeInput.(replaceNextCharCnt) <> 0
      \/ typeInput.(positionDelta) <> 0 ->
      calls_of (_onType typeInput s)
      = [VC_compositionType typeInput.(text) typeInput.(replacePrevCharCnt)
           typeInput.(replaceNextCharCnt) typeInput.(positionDelta)])
  /\ (typeInput.(replacePrevCharCnt) = 0 ->
      typeInput.(replaceNextCharCnt) = 0 ->
      typeInput.(positionDelta) = 0 ->
      calls_of (_onType typeInput s) = [VC_type typeInput.(text)]).
Proof.
  split; [apply onType_state|]. unfold _onType. split.
  - intros H.
    assert (E : (JS.truthy (replacePrevCharCnt typeInput)
                 || JS.truthy (replaceNextCharCnt typeInput)
                 || JS.truthy (positionDelta typeInput))%bool = true).
    { rewrite !orb_true_iff, !truthy_true. tauto. }
    now rewrite E.
  - intros Hp Hn Hd.
    apply truthy_false in Hp, Hn, Hd. now rewrite Hp, Hn, Hd.
Qed.

Lemma onType_dispatch_witness :
  calls_of (_onType (mkTypeData "a" 1 0 0) initial) = [VC_compositionType "a" 1 0 0]
  /\ calls_of (_onType (mkTypeData "a" 0 0 0) initial) = [VC_type "a"].
Proof.
  split.
  - apply (proj1 (proj2 (onType_dispatch (mkTypeData "a" 1 0 0) initial))).
    left. simpl. discriminate.
  - apply (proj2 (proj2 (onType_dispatch (mkTypeData "a" 0 0 0) initial)));
      reflexivity.
Defined.

(** The source's statements compute what the specification describes. *)
Lemma typeInput_of_spec (st : EditContextState) (e : TextUpdateEvent) :
  typeInput_of st e = typeInput_spec st e.
Proof.
  unfold typeInput_of, typeInput_spec.
  rewrite (Z.gtb_ltb (updateRangeEnd e)), (Z.gtb_ltb (selectionEndOffset st)).
  f_equal.
  - destruct (selectionStartOffset st <? updateRangeStart e);
      destruct (updateRangeEnd e <? selectionEndOffset st); simpl.
    + apply JSFacts.app_assoc.
    + f_equal. symmetry. apply JSFacts.app_empty_r.
    + reflexivity.
    + symmetry. apply JSFacts.app_empty_r.
  - destruct (Z.ltb_spec (updateRangeStart e) (selectionStartOffset st)); lia.
  - destruct (Z.ltb_spec (selectionEndOffset st) (updateRangeEnd e)); lia.
Qed.

(** The text update listener first moves the end of an active composition
    range, then runs [_emitTypeEvent] on the resulting adapter. *)
Lemma onTextUpdate_unfold (host : Host) (e : TextUpdateEvent) (s : Adapter) :
  let s' :=
    with_compositionRange
      (option_map
         (fun r => setEndPosition r host.(cursorPosition).(lineNumber)
                     host.(cursorPosition).(column))
         s.(_compositionRange)) s in
  onTextUpdate host e s = _emitTypeEvent e s'.
Proof.
  unfold onTextUpdate, _emitTypeEvent, bind, get, with_compositionRange.
  destruct s as [st ds [r|] f]; simpl.
  - destruct st as [st|]; simpl; [|reflexivity].
    destruct (_onType (typeInput_of st e) _) as [[u s2] t2]. reflexivity.
  - destruct st as [st|]; simpl; [|reflexivity].
    destruct (_onType (typeInput_of st e) _) as [[u s2] t2]. reflexivity.
Qed.

Lemma emitTypeEvent_with_snapshot (e : TextUpdateEvent) (s : Adapter) (st : EditContextState) :
  s.(_currentEditContextState) = Some st ->
  _emitTypeEvent e s = _onType (typeInput_of st e) s.
Proof.
  intros H. unfold _emitTypeEvent, bind, get. simpl. rewrite H.
  destruct (_onType (typeInput_of st e) s) as [[u s2] t2]. reflexivity.
Qed.

(** C1 (amended): with a captured snapshot, [_emitTypeEvent] (alone and as
    run by the text update listener) dispatches through [_onType] the
    [TypeInput] whose counts are [max(0, updateRangeEnd - selectionEndOffset)]
    and [max(0, selectionStartOffset - updateRangeStart)], whose
    [positionDelta] is 0 and whose text is the snapshot content between
    [selectionStartOffset] and [updateRangeStart], the event's text, and the
    snapshot content between [updateRangeEnd] and [selectionEndOffset].  For
    an event inside the previous selection both counts are 0; the derived
    text is the event's text when the update range is the previous
    selection.  For an update range that extends [p] code units before and
    [n] code units after the previous selection the counts are [p] and [n]
    and the text is the event's text. *)
Theorem emitTypeEvent_derives_typeInput
    (host : Host) (s : Adapter) (st : EditContextState) (e : TextUpdateEvent) :
  s.(_currentEditContextState) = Some st ->
  let typeInput := typeInput_spec st e in
  calls_of (_emitTypeEvent e s) = calls_of (_onType typeInput s)
  /\ calls_of (handle host (TextUpdate e) s) = calls_of (_onType typeInput s)
  /\ state_of (_emitTypeEvent e s) = s
  /\ (st.(selectionStartOffset) <= e.(updateRangeStart) ->
      e.(updateRangeEnd) <= st.(selectionEndOffset) ->
      typeInput.(replacePrevCharCnt) = 0 /\ typeInput.(replaceNextCharCnt) = 0)
  /\ (st.(selectionStartOffset) = e.(updateRangeStart) ->
      e.(updateRangeEnd) = st.(selectionEndOffset) ->
      typeInput = mkTypeData e.(e_text) 0 0 0
      /\ calls_of (_emitTypeEvent e s) = [VC_type e.(e_text)])
  /\ (forall p n : Z,
        0 <= p -> 0 <= n ->
        e.(updateRangeStart) = st.(selectionStartOffset) - p ->
        e.(updateRangeEnd) = st.(selectionEndOffset) + n ->
        typeInput = mkTypeData e.(e_text) p n 0).
Proof.
  intros Hst typeInput. subst typeInput.
  assert (Hcalls : calls_of (_emitTypeEvent e s) = calls_of (_onType (typeInput_spec st e) s)).
  { rewrite (emitTypeEvent_with_snapshot e s st Hst). now rewrite typeInput_of_spec. }
  split; [exact Hcalls|]. split; [|split; [|split; [|split]]].
  - simpl. rewrite onTextUpdate_unfold. cbv zeta.
    rewrite (emitTypeEvent_with_snapshot e _ st) by (destruct s; exact Hst).
    rewrite typeInput_of_spec. apply onType_calls_any_state.
  - rewrite (emitTypeEvent_with_snapshot e s st Hst). apply onType_state.
  - intros H1 H2. unfold typeInput_spec. simpl. lia.
  - intros H1 H2.
    assert (E : typeInput_spec st e = mkTypeData (e_text e) 0 0 0).
    { unfold typeInput_spec. rewrite H1, H2, !Z.ltb_irrefl, !Z.sub_diag. simpl.
      now rewrite JSFacts.app_empty_r. }
    split; [exact E|]. rewrite Hcalls, E. reflexivity.
  - intros p n Hp Hn H1 H2. unfold typeInput_spec. rewrite H1, H2.
    destruct (Z.ltb_spec (selectionStartOffset st) (selectionStartOffset st - p)); [lia|].
    destruct (Z.ltb_spec (selectionEndOffset st + n) (selectionEndOffset st)); [lia|].
    simpl. rewrite JSFacts.app_empty_r. f_equal; lia.
Qed.

Lemma emitTypeEvent_derives_typeInput_witness :
  calls_of (_emitTypeEvent (mkTextUpdate "X" 0 5) adapter_hello) = [VC_type "X"].
Proof.
  apply (emitTypeEvent_derives_typeInput host_default adapter_hello snapshot_hello
           (mkTextUpdate "X" 0 5) eq_refl); reflexivity.
Defined.

(** C1 (as stated, refuted): an update range that lies inside the previous
    selection without covering it keeps the rest of the selected content
    around the event's text; with ["hello"] selected and the event
    [{text: "X", updateRangeStart: 2, updateRangeEnd: 3}] the text that is
    typed is ["heXlo"], not ["X"]. *)
Lemma emitTypeEvent_inside_selection_keeps_rest :
  let e := mkTextUpdate "X" 2 3 in
  snapshot_hello.(selectionStartOffset) <= e.(updateRangeStart)
  /\ e.(updateRangeEnd) <= snapshot_hello.(selectionEndOffset)
  /\ calls_of (_emitTypeEvent e adapter_hello) = [VC_type "heXlo"]
  /\ (typeInput_of snapshot_hello e).(text) <> e.(e_text).
Proof.
  simpl. repeat split; try lia; try reflexivity. discriminate.
Qed.

(** What [_emitAddNewLineEvent] pushes into the input surface: the surface
    text up to the selection start, a line feed, and the surface text from
    the selection end on. *)
Lemma emitAddNewLineEvent_calls (host : Host) (s : Adapter) :
  let t := host.(editContext_text) in
  let a := Z.to_nat (JS.clamp (JS.strlen t) host.(editContext_selectionStart)) in
  let b := Z.to_nat (JS.clamp (JS.strlen t) host.(editContext_selectionEnd)) in
  _emitAddNewLineEvent host s
  = (tt, s, [EC_updateText 0 JS.MAX_SAFE_INTEGER (JS.take a t ++ JS.NL ++ JS.drop b t)%string;
             VC_type JS.NL]).
Proof.
  unfold _emitAddNewLineEvent, bind, call. simpl.
  now rewrite JSFacts.substring_0, JSFacts.substring_from_drop.
Qed.

(** Replacing the middle of a three-way split by a line feed. *)
Lemma splice_newline (p sel q : string) :
  let t := (p ++ sel ++ q)%string in
  (JS.take (String.length p) t ++ JS.NL
   ++ JS.drop (String.length p + String.length sel) t)%string
  = (p ++ JS.NL ++ q)%string.
Proof.
  simpl. rewrite JSFacts.take_length_app. do 2 f_equal.
  rewrite <- JSFacts.app_assoc, <- JSFacts.length_app.
  apply JSFacts.drop_length_app.
Qed.

(** C6: on every Enter keydown, whatever the surface selection is, the
    adapter replaces the whole mirrored text ([updateText] from 0 to
    [MAX_SAFE_INTEGER]) by the surface text with one line feed between the
    part before the selection start and the part after the selection end,
    dispatches exactly one [TypeInput] with text ["\n"] and all three numbers
    0 (which reaches the view controller as one [type]), forwards the key
    event, and leaves its own fields alone.  When the selection covers [sel]
    in [p ++ sel ++ q], the pushed text is [p ++ "\n" ++ q]. *)
Theorem enter_keydown_adds_newline (host : Host) (e : StandardKeyboardEvent) (s : Adapter) :
  e.(keyCode) = Enter ->
  let t := host.(editContext_text) in
  let a := Z.to_nat (JS.clamp (JS.strlen t) host.(editContext_selectionStart)) in
  let b := Z.to_nat (JS.clamp (JS.strlen t) host.(editContext_selectionEnd)) in
  let pushed := (JS.take a t ++ JS.NL ++ JS.drop b t)%string in
  calls_of (_emitAddNewLineEvent host s)
  = EC_updateText 0 JS.MAX_SAFE_INTEGER pushed
      :: calls_of (_onType (mkTypeData JS.NL 0 0 0) s)
  /\ calls_of (onKeyDown host e s)
     = [EC_updateText 0 JS.MAX_SAFE_INTEGER pushed; VC_type JS.NL; VC_emitKeyDown e]
  /\ state_of (onKeyDown host e s) = s
  /\ (forall p sel q : string,
        t = (p ++ sel ++ q)%string ->
        host.(editContext_selectionStart) = JS.strlen p ->
        host.(editContext_selectionEnd) = JS.strlen p + JS.strlen sel ->
        pushed = (p ++ JS.NL ++ q)%string).
Proof.
  intros He t a b pushed.
  pose proof (emitAddNewLineEvent_calls host s) as Hnl. cbv zeta in Hnl.
  fold t a b pushed in Hnl.
  split; [now rewrite Hnl|].
  assert (Hkey : onKeyDown host e s
                 = (tt, s, [EC_updateText 0 JS.MAX_SAFE_INTEGER pushed;
                            VC_type JS.NL; VC_emitKeyDown e])).
  { unfold onKeyDown. rewrite He. simpl KeyCode_eqb.
    rewrite !andb_false_r. unfold when at 1 2 3 4.
    unfold bind at 1 2 3 4. unfold ret, call. now rewrite Hnl. }
  split; [now rewrite Hkey|]. split; [now rewrite Hkey|].
  intros p sel q Ht Ha Hb. subst pushed a b.
  pose proof (JSFacts.strlen_nonneg p). pose proof (JSFacts.strlen_nonneg sel).
  assert (Hlen : JS.strlen t = JS.strlen p + JS.strlen sel + JS.strlen q).
  { rewrite Ht. unfold JS.strlen. rewrite !JSFacts.length_app. lia. }
  pose proof (JSFacts.strlen_nonneg q).
  rewrite Ha, Hb, !JSFacts.clamp_id by lia.
  unfold JS.strlen. rewrite <- Nat2Z.inj_add, !Nat2Z.id.
  rewrite Ht. apply splice_newline.
Qed.

Lemma enter_keydown_adds_newline_witness :
  calls_of (onKeyDown (host_surface "ab cd" 2 3) (mkKeyboardEvent Enter false) initial)
  = [EC_updateText 0 JS.MAX_SAFE_INTEGER text_ab_nl_cd; VC_type JS.NL;
     VC_emitKeyDown (mkKeyboardEvent Enter false)].
Proof.
  apply (enter_keydown_adds_newline (host_surface "ab cd" 2 3)
           (mkKeyboardEvent Enter false) initial eq_refl).
Defined.

(** The guard of [_setHasFocus]: nothing happens when the flag already has
    the requested value. *)
Lemma setHasFocus_same (v : bool) (s : Adapter) :
  s.(_hasFocus) = v -> _setHasFocus v s = (tt, s, []).
Proof.
  intros H. unfold _setHasFocus, bind, get. simpl.
  rewrite H, Bool.eqb_reflx. reflexivity.
Qed.

Lemma setHasFocus_changes (v : bool) (s : Adapter) :
  s.(_hasFocus) = negb v ->
  _setHasFocus v s
  = (tt, mkAdapter s.(_currentEditContextState) s.(_decorations) s.(_compositionRange) v,
     if v then [Dom_focus; VM_setHasFocus true] else [VM_setHasFocus false]).
Proof.
  intros H. unfold _setHasFocus, bind, get. simpl. rewrite H.
  destruct v; reflexivity.
Qed.

Lemma setHasFocus_stores (v : bool) (s : Adapter) :
  (state_of (_setHasFocus v s)).(_hasFocus) = v.
Proof.
  destruct (Bool.bool_dec s.(_hasFocus) v) as [E|E].
  - now rewrite setHasFocus_same.
  - rewrite setHasFocus_changes; [reflexivity|].
    destruct v, (_hasFocus s); simpl; congruence.
Qed.

(** C9: [_setHasFocus] is idempotent.  After [_setHasFocus(v)] the stored
    flag is [v]; a second [_setHasFocus(v)] makes no call and changes
    nothing, so the two calls together notify the view model at most once.
    Gaining focus calls the DOM node's [focus] and then notifies the view
    model with [true]; losing focus only notifies the view model with
    [false]; an unchanged flag does neither. *)
Theorem setHasFocus_idempotent (v : bool) (s : Adapter) :
  let first := _setHasFocus v s in
  let second := _setHasFocus v (state_of first) in
  (state_of first).(_hasFocus) = v
  /\ calls_of second = []
  /\ state_of second = state_of first
  /\ (count is_VM_setHasFocus (calls_of first ++ calls_of second) <= 1)%nat
  /\ calls_of (_setHasFocus true s)
     = (if s.(_hasFocus) then [] else [Dom_focus; VM_setHasFocus true])
  /\ calls_of (_setHasFocus false s)
     = (if s.(_hasFocus) then [VM_setHasFocus false] else [])
  /\ count is_Dom_focus (calls_of (_setHasFocus false s)) = 0%nat.
Proof.
  intros first second. subst first second.
  pose proof (setHasFocus_stores v s) as Hv.
  rewrite (setHasFocus_same v (state_of (_setHasFocus v s)) Hv).
  split; [exact Hv|]. split; [reflexivity|]. split; [reflexivity|].
  destruct s as [st ds r f]. destruct v, f; cbn; repeat split; lia.
Qed.

(** C10: on a keydown of the paste chord (meta key with V) the handler
    prevents the default action and reads the clipboard.  When the text read
    is empty it neither looks up clipboard metadata nor forwards a paste;
    otherwise it looks up the metadata for that text and forwards exactly
    one paste of it.  So a paste is forwarded if and only if the clipboard
    text is not empty.  The key event is forwarded in both cases. *)
Theorem paste_keydown_needs_text (host : Host) (e : StandardKeyboardEvent) (s : Adapter) :
  e.(metaKey) = true ->
  e.(keyCode) = KeyV ->
  let t := host.(clipboard_readText) in
  let calls := calls_of (onKeyDown host e s) in
  (t = EmptyString ->
   calls = [Ev_preventDefault; Clipboard_readText; VC_emitKeyDown e])
  /\ (t <> EmptyString ->
      exists pasteOnNewLine multicursor m,
        calls = [Ev_preventDefault; Clipboard_readText; Registry_get t;
                 VC_paste t pasteOnNewLine multicursor m; VC_emitKeyDown e])
  /\ (existsb is_VC_paste calls = true <-> t <> EmptyString)
  /\ (existsb is_Registry_get calls = true <-> t <> EmptyString)
  /\ state_of (onKeyDown host e s) = s.
Proof.
  intros Hm Hk t calls. subst calls.
  unfold onKeyDown. rewrite Hm, Hk. simpl KeyCode_eqb. simpl andb.
  unfold when at 1 2 3 4. unfold paste_clipboardText. fold t.
  destruct (String.eqb_spec t EmptyString) as [E|E].
  - cbn. repeat split; try congruence; intros; discriminate.
  - destruct (registry_get host t) as [md|]; cbn;
      (split; [congruence|]); (split; [intros _; eauto|]); repeat split; auto.
Qed.

Lemma paste_keydown_needs_text_witness :
  calls_of (onKeyDown (host_clipboard EmptyString) (mkKeyboardEvent KeyV true) initial)
  = [Ev_preventDefault; Clipboard_readText; VC_emitKeyDown (mkKeyboardEvent KeyV true)]
  /\ calls_of (onKeyDown (host_clipboard "x") (mkKeyboardEvent KeyV true) initial)
     = [Ev_preventDefault; Clipboard_readText; Registry_get "x";
        VC_paste "x" false None None; VC_emitKeyDown (mkKeyboardEvent KeyV true)].
Proof.
  split.
  - apply (proj1 (paste_keydown_needs_text (host_clipboard EmptyString)
                    (mkKeyboardEvent KeyV true) initial eq_refl eq_refl)).
    reflexivity.
  - reflexivity.
Defined.

(** What [_ensureClipboardGetsEditorSelection] does, as one equation. *)
Lemma ensureClipboardGetsEditorSelection_run (host : Host) (s : Adapter) :
  let d := host.(dataToCopy) in
  _ensureClipboardGetsEditorSelection host s
  = (tt, s,
     [Registry_set (if host.(isFirefox) then JS.replace_crlf d.(d_text) else d.(d_text))
        (mkMetadata 1 (Some d.(d_isFromEmptySelection)) d.(d_multicursorText) d.(d_mode));
      Clipboard_writeText d.(d_text)]).
Proof. reflexivity. Qed.

(** C2 (amended): on every copy and on every cut, the key under which the
    clipboard metadata is stored is the copied text with every CR LF
    replaced by LF on Firefox and the unmodified copied text elsewhere; the
    text written to the clipboard service is the unmodified copied text on
    every platform. *)
Theorem clipboard_texts_on_copy_and_cut (host : Host) (s : Adapter) :
  let copied := host.(dataToCopy).(d_text) in
  let key := if host.(isFirefox) then JS.replace_crlf copied else copied in
  let cut := mkKeyboardEvent KeyX true in
  stored_keys (calls_of (handle host Copy s)) = [key]
  /\ written_texts (calls_of (handle host Copy s)) = [copied]
  /\ stored_keys (calls_of (handle host (KeyDown cut) s)) = [key]
  /\ written_texts (calls_of (handle host (KeyDown cut) s)) = [copied]
  /\ (exists data,
        calls_of (handle host (KeyDown cut) s)
        = [Registry_set key data; Clipboard_writeText copied; VC_cut; VC_emitKeyDown cut]).
Proof.
  cbn. repeat split. eexists. reflexivity.
Qed.

(** C2 (as stated, refuted): on Firefox, copying ["a\r\nb"] stores the
    metadata under ["a\nb"] but writes ["a\r\nb"] itself to the clipboard
    service; the written text still has its CR LF. *)
Lemma firefox_copy_writes_crlf_text :
  let host := host_copying true text_a_crlf_b in
  host.(isFirefox) = true
  /\ stored_keys (calls_of (handle host Copy initial))
     = [JS.replace_crlf text_a_crlf_b]
  /\ written_texts (calls_of (handle host Copy initial)) = [text_a_crlf_b]
  /\ written_texts (calls_of (handle host Copy initial))
     <> [JS.replace_crlf text_a_crlf_b].
Proof. simpl. repeat split. discriminate. Qed.

Lemma emitTypeEvent_without_snapshot (e : TextUpdateEvent) (s : Adapter) :
  s.(_currentEditContextState) = None -> _emitTypeEvent e s = (tt, s, []).
Proof. intros H. unfold _emitTypeEvent, bind, get. simpl. now rewrite H. Qed.

Lemma handleTextFormatUpdate_without_snapshot
    (host : Host) (formats : list TextFormat) (s : Adapter) :
  s.(_currentEditContextState) = None ->
  _handleTextFormatUpdate host formats s = (tt, s, []).
Proof. intros H. unfold _handleTextFormatUpdate, bind, get. simpl. now rewrite H. Qed.

Lemma with_compositionRange_same (s : Adapter) :
  with_compositionRange s.(_compositionRange) s = s.
Proof. now destruct s. Qed.

(** C8 (amended): while no snapshot has been captured, [_emitTypeEvent] and
    the text format update handler return without any call on a
    collaborator and leave every field of the adapter as it was.  The text
    update listener makes no call either; it leaves the adapter as it was
    when no composition is active, and during a composition it still moves
    the end of the composition range to the current cursor position, all
    other fields staying as they were. *)
Theorem events_without_snapshot
    (host : Host) (e : TextUpdateEvent) (formats : list TextFormat) (s : Adapter) :
  s.(_currentEditContextState) = None ->
  _emitTypeEvent e s = (tt, s, [])
  /\ handle host (TextFormatUpdate formats) s = (tt, s, [])
  /\ calls_of (handle host (TextUpdate e) s) = []
  /\ state_of (handle host (TextUpdate e) s)
     = with_compositionRange
         (option_map
            (fun r => setEndPosition r host.(cursorPosition).(lineNumber)
                        host.(cursorPosition).(column))
            s.(_compositionRange)) s
  /\ (s.(_compositionRange) = None -> handle host (TextUpdate e) s = (tt, s, [])).
Proof.
  intros H.
  split; [now apply emitTypeEvent_without_snapshot|].
  split; [now apply handleTextFormatUpdate_without_snapshot|].
  simpl handle. rewrite onTextUpdate_unfold. cbv zeta.
  rewrite emitTypeEvent_without_snapshot by (destruct s; exact H).
  split; [reflexivity|]. split; [reflexivity|].
  intros Hr. rewrite Hr. simpl. rewrite <- Hr at 1.
  now rewrite with_compositionRange_same.
Qed.

Lemma events_without_snapshot_witness :
  handle host_default (TextUpdate (mkTextUpdate "x" 0 0)) initial = (tt, initial, [])
  /\ handle host_default (TextFormatUpdate [mkTextFormat 0 1 "Solid" "Thin"]) initial
     = (tt, initial, []).
Proof.
  pose proof (events_without_snapshot host_default (mkTextUpdate "x" 0 0)
                [mkTextFormat 0 1 "Solid" "Thin"] initial eq_refl) as H.
  destruct H as (_ & Hformat & _ & _ & Hupdate).
  split.
  - apply Hupdate. reflexivity.
  - exact Hformat.
Defined.

(** C8 (as stated, refuted): a composition that starts before the first
    render pass leaves the adapter without a snapshot; a text update that
    arrives then, with the cursor moved to column 2, changes the adapter's
    composition range. *)
Lemma textupdate_without_snapshot_moves_composition_end :
  let s := state_of (run [(host_at (mkPosition 1 1), CompositionStart)] initial) in
  let s' := state_of (handle (host_at (mkPosition 1 2)) (TextUpdate (mkTextUpdate "x" 0 0)) s) in
  s.(_currentEditContextState) = None
  /\ s.(_compositionRange) = Some (mkRange 1 1 1 1)
  /\ s'.(_compositionRange) = Some (mkRange 1 1 1 2)
  /\ s' <> s.
Proof. simpl. repeat split. discriminate. Qed.

Lemma emitTypeEvent_state (e : TextUpdateEvent) (s : Adapter) :
  state_of (_emitTypeEvent e s) = s.
Proof.
  destruct (_currentEditContextState s) as [st|] eqn:E.
  - rewrite (emitTypeEvent_with_snapshot e s st E). apply onType_state.
  - now rewrite emitTypeEvent_without_snapshot.
Qed.

Lemma onTextUpdate_state (host : Host) (e : TextUpdateEvent) (s : Adapter) :
  state_of (onTextUpdate host e s)
  = with_compositionRange
      (option_map
         (fun r => setEndPosition r host.(cursorPosition).(lineNumber)
                     host.(cursorPosition).(column))
         s.(_compositionRange)) s.
Proof. rewrite onTextUpdate_unfold. apply emitTypeEvent_state. Qed.

Lemma last_cons_default {A} (l : list A) (x d : A) : last (x :: l) d = last l x.
Proof.
  revert x d. induction l as [|a l IH]; intros x d; [reflexivity|].
  change (last (x :: a :: l) d) with (last (a :: l) d).
  now rewrite !IH.
Qed.

Lemma states_after_app (evs1 evs2 : list (Host * Event)) (s : Adapter) :
  states_after (evs1 ++ evs2) s
  = states_after evs1 s ++ states_after evs2 (last (states_after evs1 s) s).
Proof.
  revert s. induction evs1 as [|[host ev] rest IH]; intros s; [reflexivity|].
  change (states_after (((host, ev) :: rest) ++ evs2) s)
    with (state_of (handle host ev s)
            :: states_after (rest ++ evs2) (state_of (handle host ev s))).
  change (states_after ((host, ev) :: rest) s)
    with (state_of (handle host ev s)
            :: states_after rest (state_of (handle host ev s))).
  now rewrite IH, last_cons_default.
Qed.

(** The last of the states reached is the state [run] ends in. *)
Lemma run_state (evs : list (Host * Event)) (s : Adapter) :
  state_of (run evs s) = last (states_after evs s) s.
Proof.
  revert s. induction evs as [|[host ev] rest IH]; intros s; [reflexivity|].
  change (run ((host, ev) :: rest)) with (bind (handle host ev) (fun _ => run rest)).
  change (states_after ((host, ev) :: rest) s)
    with (state_of (handle host ev s)
            :: states_after rest (state_of (handle host ev s))).
  now rewrite bind_state, IH, last_cons_default.
Qed.

(** Text updates during a composition: the range stays present and after
    each update its end is the cursor position seen at that update. *)
Lemma states_during_composition (ups : list (Host * TextUpdateEvent)) :
  forall (s : Adapter) (r : Range),
    s.(_compositionRange) = Some r ->
    let during := states_after (textUpdates ups) s in
    List.length during = List.length ups
    /\ Forall (fun st => st.(_compositionRange) <> None) during
    /\ (last during s).(_compositionRange) <> None
    /\ map compositionEndPosition during
       = map (fun u => Some (fst u).(cursorPosition)) ups.
Proof.
  induction ups as [|[host e] rest IH]; intros s r Hr.
  - simpl. repeat split; [constructor | congruence].
  - simpl textUpdates. simpl states_after.
    set (s' := state_of (onTextUpdate host e s)).
    assert (Hr' : _compositionRange s'
                  = Some (setEndPosition r (lineNumber (cursorPosition host))
                            (column (cursorPosition host)))).
    { unfold s'. rewrite onTextUpdate_state, Hr. reflexivity. }
    destruct (IH s' _ Hr') as (Hlen & Hall & Hlast & Hends).
    repeat split.
    + simpl. now rewrite Hlen.
    + constructor; [congruence | exact Hall].
    + rewrite last_cons_default. exact Hlast.
    + simpl map. rewrite Hends. f_equal.
      unfold compositionEndPosition. rewrite Hr'. now destruct (cursorPosition host).
Qed.

Lemma ends_nondecreasing_of_positions (p : Position) (l : list Position) :
  nondecreasing_from p l -> ends_nondecreasing_from p (map Some l).
Proof.
  revert p. induction l as [|q l IH]; intros p; simpl; [trivial|].
  intros [H1 H2]. split; [exact H1 | now apply IH].
Qed.

Lemma nondecreasing_of_ends (p : Position) (l : list Position) :
  ends_nondecreasing_from p (map Some l) -> nondecreasing_from p l.
Proof.
  revert p. induction l as [|q l IH]; intros p; simpl; [trivial|].
  intros [H1 H2]. split; [exact H1 | now apply IH].
Qed.

(** Text updates during a composition that started at [start]: after each
    update the range runs from [start] to the cursor position seen at that
    update. *)
Lemma ranges_during_composition (start : Position) (ups : list (Host * TextUpdateEvent)) :
  forall (s : Adapter) (r : Range),
    s.(_compositionRange) = Some r ->
    getStartPosition r = start ->
    map _compositionRange (states_after (textUpdates ups) s)
    = map (fun c => Some (fromPositions start c))
        (map (fun u => (fst u).(cursorPosition)) ups).
Proof.
  induction ups as [|[host e] rest IH]; intros s r Hr Hstart; [reflexivity|].
  simpl textUpdates. simpl states_after. simpl map.
  assert (Hr' : _compositionRange (state_of (onTextUpdate host e s))
                = Some (fromPositions start host.(cursorPosition))).
  { rewrite onTextUpdate_state, Hr. simpl. f_equal.
    unfold setEndPosition, fromPositions. rewrite <- Hstart. reflexivity. }
  rewrite Hr'. f_equal. apply (IH _ _ Hr'). now destruct start.
Qed.

(** C3 (amended): for compositionstart, then N text updates, then
    compositionend: compositionstart sets the composition range to the
    zero-length range at the cursor; the range is present after each of the
    N updates; it is absent after compositionend.  As long as no update
    arrives with the cursor before the position where the composition
    started, the range after each update runs from that start position to
    the cursor position seen at that update, so its end is that cursor
    position; the ends are then non-shrinking exactly when the cursor
    positions seen never move backwards. *)
Theorem composition_lifecycle
    (s : Adapter) (hostStart hostEnd : Host) (ups : list (Host * TextUpdateEvent)) :
  let started := state_of (handle hostStart CompositionStart s) in
  let during := states_after (textUpdates ups) started in
  let ended := state_of (handle hostEnd CompositionEnd (last during started)) in
  let cursors := map (fun u => (fst u).(cursorPosition)) ups in
  states_after (compositionSequence hostStart ups hostEnd) s
  = started :: during ++ [ended]
  /\ state_of (run (compositionSequence hostStart ups hostEnd) s) = ended
  /\ started.(_compositionRange)
     = Some (fromPositions hostStart.(cursorPosition) hostStart.(cursorPosition))
  /\ List.length during = List.length ups
  /\ Forall (fun st => st.(_compositionRange) <> None) during
  /\ ended.(_compositionRange) = None
  /\ (Forall (fun c => isBeforeOrEqual hostStart.(cursorPosition) c = true) cursors ->
      map _compositionRange during
      = map (fun c => Some (fromPositions hostStart.(cursorPosition) c)) cursors
      /\ map compositionEndPosition during = map Some cursors
      /\ (ends_nondecreasing_from hostStart.(cursorPosition)
            (map compositionEndPosition during)
          <-> nondecreasing_from hostStart.(cursorPosition) cursors)).
Proof.
  intros started during ended cursors.
  assert (Hseq : states_after (compositionSequence hostStart ups hostEnd) s
                 = started :: during ++ [ended]).
  { unfold compositionSequence. simpl states_after. fold started.
    rewrite states_after_app. fold during. reflexivity. }
  assert (Hstart : _compositionRange started
                   = Some (fromPositions (cursorPosition hostStart) (cursorPosition hostStart)))
    by reflexivity.
  destruct (states_during_composition ups started _ Hstart) as (Hlen & Hall & _ & Hends).
  fold during in Hlen, Hall, Hends.
  assert (Hmap : map compositionEndPosition during = map Some cursors).
  { rewrite Hends. unfold cursors. now rewrite map_map. }
  split; [exact Hseq|]. split.
  { rewrite run_state, Hseq.
    change (started :: during ++ [ended]) with ((started :: during) ++ [ended]).
    apply last_last. }
  repeat split; try assumption.
  - unfold during, cursors.
    apply (ranges_during_composition (cursorPosition hostStart) ups started _ Hstart).
    now destruct (cursorPosition hostStart).
  - rewrite Hmap. apply nondecreasing_of_ends.
  - rewrite Hmap. apply ends_nondecreasing_of_positions.
Qed.

Lemma composition_lifecycle_witness :
  let e := mkTextUpdate "x" 0 0 in
  let started := state_of (handle (host_at (mkPosition 1 3)) CompositionStart initial) in
  map _compositionRange
    (states_after
       (textUpdates [(host_at (mkPosition 1 3), e); (host_at (mkPosition 1 5), e);
                     (host_at (mkPosition 1 4), e)]) started)
  = [Some (mkRange 1 3 1 3); Some (mkRange 1 3 1 5); Some (mkRange 1 3 1 4)].
Proof.
  intros e started.
  pose proof (composition_lifecycle initial (host_at (mkPosition 1 3)) host_default
                [(host_at (mkPosition 1 3), e); (host_at (mkPosition 1 5), e);
                 (host_at (mkPosition 1 4), e)]) as H.
  cbv zeta in H. destruct H as (_ & _ & _ & _ & _ & _ & H).
  apply H. repeat constructor.
Defined.

(** C3 (as stated, refuted): the end of the composition range follows the
    cursor.  A composition starts at (1,3); the cursor is at (1,3) when the
    first update arrives, at (1,5) at the second and, after the composed
    text got shorter, at (1,4) at the third: the end moves back from (1,5)
    to (1,4). *)
Lemma composition_end_can_shrink :
  let e := mkTextUpdate "x" 0 0 in
  let started := state_of (handle (host_at (mkPosition 1 3)) CompositionStart initial) in
  let ends :=
    map compositionEndPosition
      (states_after
         (textUpdates [(host_at (mkPosition 1 3), e); (host_at (mkPosition 1 5), e);
                       (host_at (mkPosition 1 4), e)])
         started) in
  ends = [Some (mkPosition 1 3); Some (mkPosition 1 5); Some (mkPosition 1 4)]
  /\ isBefore (mkPosition 1 4) (mkPosition 1 5) = true
  /\ ~ ends_nondecreasing_from (mkPosition 1 3) ends.
Proof.
  simpl. repeat split. intros (_ & _ & H & _). discriminate H.
Qed.

(** ** Further properties of the adapter *)

(** The calls of a sequence of two handlers. *)
Lemma bind_calls {A B} (m : M A) (k : A -> M B) (s : Adapter) :
  calls_of (bind m k s)
  = calls_of (m s) ++ calls_of (k (fst (fst (m s))) (state_of (m s))).
Proof.
  unfold bind, calls_of, state_of.
  destruct (m s) as [[a s1] t1]. simpl.
  destruct (k a s1) as [[b s2] t2]. reflexivity.
Qed.

Lemma run_cons_calls (host : Host) (ev : Event) (rest : list (Host * Event)) (s : Adapter) :
  calls_of (run ((host, ev) :: rest) s)
  = calls_of (handle host ev s) ++ calls_of (run rest (state_of (handle host ev s))).
Proof.
  exact (bind_calls (handle host ev) (fun _ => run rest) s).
Qed.

Lemma run_cons_state (host : Host) (ev : Event) (rest : list (Host * Event)) (s : Adapter) :
  state_of (run ((host, ev) :: rest) s) = state_of (run rest (state_of (handle host ev s))).
Proof.
  exact (bind_state (handle host ev) (fun _ => run rest) s).
Qed.

Lemma run_app_state (evs1 evs2 : list (Host * Event)) (s : Adapter) :
  state_of (run (evs1 ++ evs2) s) = state_of (run evs2 (state_of (run evs1 s))).
Proof.
  revert s. induction evs1 as [|[host ev] rest IH]; intros s; [reflexivity|].
  change (((host, ev) :: rest) ++ evs2) with ((host, ev) :: (rest ++ evs2)).
  now rewrite !run_cons_state, IH.
Qed.

Lemma lineNumbers_S (first : Z) (n : nat) :
  lineNumbers first (S n) = first :: lineNumbers (first + 1) n.
Proof.
  unfold lineNumbers. simpl seq. simpl map. rewrite Z.add_0_r. f_equal.
  rewrite <- seq_shift, map_map. apply map_ext. intros k. lia.
Qed.

(** The loop of [_getEditContextState], run for the lines [i .. endLine]:
    the maximal columns of the lines before the last are added up, then the
    end column minus one. *)
Lemma selectionEndOffset_loop_closed (host : Host) (sel : Range) (n : nat) :
  forall i acc : Z,
    i + Z.of_nat n = sel.(endLineNumber) ->
    selectionEndOffset_loop host sel (S n) i acc
    = acc + sumZ (map host.(getLineMaxColumn) (lineNumbers i n)) + (sel.(endColumn) - 1).
Proof.
  induction n as [|n IH]; intros i acc Hi.
  - simpl. replace (i =? endLineNumber sel) with true by (symmetry; apply Z.eqb_eq; lia).
    lia.
  - change (selectionEndOffset_loop host sel (S (S n)) i acc)
      with (selectionEndOffset_loop host sel (S n) (i + 1)
              (if i =? endLineNumber sel
               then acc + (endColumn sel - 1)
               else acc + getLineMaxColumn host i)).
    replace (i =? endLineNumber sel) with false by (symmetry; apply Z.eqb_neq; lia).
    rewrite IH by lia. rewrite lineNumbers_S. simpl. lia.
Qed.

Lemma sumZ_lower_bound (f : Z -> Z) (l : list Z) :
  (forall i, In i l -> 1 <= f i) -> 0 <= sumZ (map f l).
Proof.
  induction l as [|a l IH]; intros H; simpl; [lia|].
  pose proof (H a (or_introl eq_refl)).
  assert (0 <= sumZ (map f l)) by (apply IH; intros i Hi; apply H; now right).
  lia.
Qed.

Lemma lineNumbers_range (first : Z) (n : nat) (i : Z) :
  In i (lineNumbers first n) -> first <= i < first + Z.of_nat n.
Proof.
  unfold lineNumbers. rewrite in_map_iff. intros (k & <- & Hk).
  apply in_seq in Hk. lia.
Qed.

(** X1: the snapshot computed by [_getEditContextState] has
    [selectionStartOffset = startColumn - 1]; for a selection from line [a]
    to line [b >= a] its [selectionEndOffset] is the sum of the maximal
    columns of the lines [a .. b-1] plus [endColumn - 1], so for a selection
    within one line it is [endColumn - 1]; when the end line is before the
    start line the loop body never runs and the end offset is 0. *)
Theorem getEditContextState_selection_offsets (host : Host) :
  let sel := host.(selection) in
  let st := _getEditContextState host in
  st.(selectionStartOffset) = sel.(startColumn) - 1
  /\ (sel.(startLineNumber) <= sel.(endLineNumber) ->
      st.(selectionEndOffset)
      = sumZ (map host.(getLineMaxColumn)
                (lineNumbers sel.(startLineNumber)
                   (Z.to_nat (sel.(endLineNumber) - sel.(startLineNumber)))))
        + (sel.(endColumn) - 1))
  /\ (sel.(startLineNumber) = sel.(endLineNumber) ->
      st.(selectionEndOffset) = sel.(endColumn) - 1)
  /\ (sel.(endLineNumber) < sel.(startLineNumber) -> st.(selectionEndOffset) = 0).
Proof.
  intros sel st. subst st. unfold _getEditContextState. fold sel. simpl.
  split; [reflexivity|].
  assert (Hclosed : startLineNumber sel <= endLineNumber sel ->
            selectionEndOffset_loop host sel
              (Z.to_nat (endLineNumber sel - startLineNumber sel + 1))
              (startLineNumber sel) 0
            = sumZ (map (getLineMaxColumn host)
                      (lineNumbers (startLineNumber sel)
                         (Z.to_nat (endLineNumber sel - startLineNumber sel))))
              + (endColumn sel - 1)).
  { intros Hle.
    replace (Z.to_nat (endLineNumber sel - startLineNumber sel + 1))
      with (S (Z.to_nat (endLineNumber sel - startLineNumber sel))) by lia.
    rewrite selectionEndOffset_loop_closed by lia. lia. }
  split; [exact Hclosed|]. split.
  - intros Heq. rewrite Hclosed by lia. rewrite Heq, Z.sub_diag. simpl. lia.
  - intros Hlt.
    replace (Z.to_nat (endLineNumber sel - startLineNumber sel + 1)) with O by lia.
    reflexivity.
Qed.

Lemma getEditContextState_selection_offsets_witness :
  (_getEditContextState (host_selecting (mkRange 1 2 3 4) 10)).(selectionEndOffset) = 23.
Proof.
  pose proof (getEditContextState_selection_offsets (host_selecting (mkRange 1 2 3 4) 10)) as H.
  cbv zeta in H. destruct H as (_ & H & _ & _).
  rewrite H; [reflexivity | simpl; lia].
Defined.

(** X2: when the view model's selection is well formed (start not after
    end, columns at least 1, the start column within its line, every line
    with a maximal column of at least 1), the snapshot's offsets are
    ordered: [selectionStartOffset <= selectionEndOffset], and both are
    non-negative. *)
Theorem getEditContextState_offsets_ordered (host : Host) :
  let sel := host.(selection) in
  let st := _getEditContextState host in
  sel.(startLineNumber) <= sel.(endLineNumber) ->
  1 <= sel.(startColumn) ->
  1 <= sel.(endColumn) ->
  (sel.(startLineNumber) = sel.(endLineNumber) -> sel.(startColumn) <= sel.(endColumn)) ->
  (sel.(startLineNumber) < sel.(endLineNumber) ->
   sel.(startColumn) <= host.(getLineMaxColumn) sel.(startLineNumber)) ->
  (forall i, sel.(startLineNumber) <= i < sel.(endLineNumber) ->
             1 <= host.(getLineMaxColumn) i) ->
  0 <= st.(selectionStartOffset) <= st.(selectionEndOffset).
Proof.
  intros sel st Hle Hsc Hec Hsame Hmulti Hmax. subst st.
  unfold _getEditContextState. fold sel. simpl.
  replace (Z.to_nat (endLineNumber sel - startLineNumber sel + 1))
    with (S (Z.to_nat (endLineNumber sel - startLineNumber sel))) by lia.
  rewrite selectionEndOffset_loop_closed by lia.
  destruct (Z.to_nat (endLineNumber sel - startLineNumber sel)) as [|n] eqn:En.
  - simpl. assert (startLineNumber sel = endLineNumber sel) by lia.
    specialize (Hsame H). lia.
  - rewrite lineNumbers_S. simpl.
    assert (Hlt : startLineNumber sel < endLineNumber sel) by lia.
    specialize (Hmulti Hlt).
    assert (0 <= sumZ (map (getLineMaxColumn host) (lineNumbers (startLineNumber sel + 1) n))).
    { apply sumZ_lower_bound. intros i Hi. apply lineNumbers_range in Hi.
      apply Hmax. lia. }
    lia.
Qed.

Lemma getEditContextState_offsets_ordered_witness :
  0 <= (_getEditContextState (host_selecting (mkRange 1 2 3 4) 10)).(selectionStartOffset)
    <= (_getEditContextState (host_selecting (mkRange 1 2 3 4) 10)).(selectionEndOffset).
Proof.
  apply (getEditContextState_offsets_ordered (host_selecting (mkRange 1 2 3 4) 10));
    simpl; intros; lia.
Defined.

(** *** What each handler does to the adapter's fields *)

Lemma setHasFocus_state (v : bool) (s : Adapter) :
  state_of (_setHasFocus v s)
  = mkAdapter s.(_currentEditContextState) s.(_decorations) s.(_compositionRange) v.
Proof. destruct s as [st ds r f]. destruct v, f; reflexivity. Qed.

Lemma setHasFocus_calls (v : bool) (s : Adapter) :
  calls_of (_setHasFocus v s)
  = if Bool.eqb s.(_hasFocus) v then []
    else if v then [Dom_focus; VM_setHasFocus true] else [VM_setHasFocus false].
Proof. destruct s as [st ds r f]. destruct v, f; reflexivity. Qed.

Lemma paste_clipboardText_state (host : Host) (t : string) (s : Adapter) :
  state_of (paste_clipboardText host t s) = s.
Proof.
  unfold paste_clipboardText. destruct (String.eqb t EmptyString); [reflexivity|].
  destruct (registry_get host t); reflexivity.
Qed.

(** The keydown listener as one equation: the adapter is left as it was,
    and the calls are those of the special cases that apply, in program
    order, followed by the forwarding of the key event. *)
Lemma onKeyDown_run (host : Host) (e : StandardKeyboardEvent) (s : Adapter) :
  onKeyDown host e s
  = (tt, s,
     (if KeyCode_eqb e.(keyCode) KEY_IN_COMPOSITION then [Ev_stopPropagation] else [])
     ++ (if KeyCode_eqb e.(keyCode) Enter then calls_of (_emitAddNewLineEvent host s) else [])
     ++ (if (e.(metaKey) && KeyCode_eqb e.(keyCode) KeyV)%bool
         then Ev_preventDefault :: Clipboard_readText
              :: calls_of (paste_clipboardText host host.(clipboard_readText) s)
         else [])
     ++ (if (e.(metaKey) && KeyCode_eqb e.(keyCode) KeyX)%bool
         then calls_of (_ensureClipboardGetsEditorSelection host s) ++ [VC_cut]
         else [])
     ++ [VC_emitKeyDown e]).
Proof.
  destruct e as [kc meta]. unfold onKeyDown. simpl keyCode. simpl metaKey.
  destruct kc; destruct meta; simpl KeyCode_eqb; simpl andb; unfold when;
    try reflexivity.
  unfold bind, ret, call. cbn -[paste_clipboardText].
    pose proof (paste_clipboardText_state host (clipboard_readText host) s) as Hs.
    unfold state_of, calls_of in *.
    destruct (paste_clipboardText host (clipboard_readText host) s) as [[[] s1] t1].
    simpl in Hs. subst s1. reflexivity.
Qed.

Lemma onKeyDown_state (host : Host) (e : StandardKeyboardEvent) (s : Adapter) :
  state_of (onKeyDown host e s) = s.
Proof. now rewrite onKeyDown_run. Qed.

Lemma handleTextFormatUpdate_with_snapshot
    (host : Host) (formats : list TextFormat) (s : Adapter) (st : EditContextState) :
  s.(_currentEditContextState) = Some st ->
  let decorations := map (decoration_of host st.(rangeOfContent)) formats in
  _handleTextFormatUpdate host formats s
  = (tt,
     mkAdapter s.(_currentEditContextState)
       (host.(deltaDecorations) s.(_decorations) decorations)
       s.(_compositionRange) s.(_hasFocus),
     [Model_deltaDecorations s.(_decorations) decorations]).
Proof.
  intros H. unfold _handleTextFormatUpdate, bind, get. simpl. rewrite H. simpl.
  now rewrite H.
Qed.

(** Which fields one event can change. *)
Lemma handle_fields (host : Host) (ev : Event) (s : Adapter) :
  (is_PrepareRender ev = false ->
   (state_of (handle host ev s)).(_currentEditContextState) = s.(_currentEditContextState))
  /\ (is_TextFormatUpdate ev = false ->
      (state_of (handle host ev s)).(_decorations) = s.(_decorations))
  /\ (is_focus_event ev = false ->
      (state_of (handle host ev s)).(_hasFocus) = s.(_hasFocus))
  /\ (is_composition_related ev = false ->
      (state_of (handle host ev s)).(_compositionRange) = s.(_compositionRange))
  /\ (is_key_or_copy ev = true -> state_of (handle host ev s) = s).
Proof.
  destruct ev; simpl handle.
  1, 2: rewrite setHasFocus_state; simpl; repeat split; intros; try reflexivity;
        discriminate.
  - repeat split.
  - rewrite onKeyDown_state. repeat split.
  - repeat split.
  - rewrite onTextUpdate_state. simpl. repeat split; intros; try reflexivity; discriminate.
  - repeat split; intros; try reflexivity; discriminate.
  - repeat split; intros; try reflexivity; discriminate.
  - destruct (_currentEditContextState s) as [st|] eqn:E.
    + rewrite (handleTextFormatUpdate_with_snapshot host formats s st E).
      simpl. repeat split; intros; try assumption; try reflexivity; try discriminate.
    + rewrite handleTextFormatUpdate_without_snapshot by exact E.
      repeat split; intros; simpl; auto; discriminate.
  - repeat split; intros; try reflexivity; discriminate.
Qed.

Lemma none_of_cons (kind : Event -> bool) (host : Host) (ev : Event)
    (rest : list (Host * Event)) :
  none_of kind ((host, ev) :: rest) = true ->
  kind ev = false /\ none_of kind rest = true.
Proof.
  unfold none_of. simpl. intros H. apply andb_true_iff in H as [H1 H2].
  split; [now apply negb_true_iff | exact H2].
Qed.

(** X3: which fields a sequence of events can change.  The snapshot stays
    as it was over any events without a render pass, the decoration ids over
    any events without a text format update, the focus flag over any events
    without focus or blur, the composition range over any events without
    compositionstart, compositionend or text update; and sequences of
    keydown, keyup and copy events change no field at all. *)
Theorem run_frame (evs : list (Host * Event)) :
  forall s : Adapter,
    (none_of is_PrepareRender evs = true ->
     (state_of (run evs s)).(_currentEditContextState) = s.(_currentEditContextState))
    /\ (none_of is_TextFormatUpdate evs = true ->
        (state_of (run evs s)).(_decorations) = s.(_decorations))
    /\ (none_of is_focus_event evs = true ->
        (state_of (run evs s)).(_hasFocus) = s.(_hasFocus))
    /\ (none_of is_composition_related evs = true ->
        (state_of (run evs s)).(_compositionRange) = s.(_compositionRange))
    /\ (forallb (fun he => is_key_or_copy (snd he)) evs = true ->
        state_of (run evs s) = s).
Proof.
  induction evs as [|[host ev] rest IH]; intros s; [repeat split|].
  rewrite run_cons_state.
  destruct (IH (state_of (handle host ev s))) as (I1 & I2 & I3 & I4 & I5).
  destruct (handle_fields host ev s) as (H1 & H2 & H3 & H4 & H5).
  repeat split; intros H.
  - apply none_of_cons in H as [Hev Hrest]. now rewrite I1, H1.
  - apply none_of_cons in H as [Hev Hrest]. now rewrite I2, H2.
  - apply none_of_cons in H as [Hev Hrest]. now rewrite I3, H3.
  - apply none_of_cons in H as [Hev Hrest]. now rewrite I4, H4.
  - simpl in H. apply andb_true_iff in H as [Hev Hrest]. now rewrite I5, H5.
Qed.

Lemma run_frame_witness :
  state_of (run [(host_clipboard "x", KeyDown (mkKeyboardEvent KeyV true));
                 (host_copying true "abc", Copy);
                 (host_default, KeyUp (mkKeyboardEvent KeyV true))] adapter_hello)
  = adapter_hello.
Proof.
  apply (run_frame [(host_clipboard "x", KeyDown (mkKeyboardEvent KeyV true));
                    (host_copying true "abc", Copy);
                    (host_default, KeyUp (mkKeyboardEvent KeyV true))] adapter_hello).
  reflexivity.
Defined.

(** With a snapshot, the text update listener and [_emitTypeEvent] make the
    calls of [_onType] on the [TypeInput] of the specification. *)
Lemma emitTypeEvent_derives_typeInput_aux
    (host : Host) (s : Adapter) (st : EditContextState) (e : TextUpdateEvent) :
  s.(_currentEditContextState) = Some st ->
  calls_of (_emitTypeEvent e s) = calls_of (_onType (typeInput_spec st e) s)
  /\ calls_of (handle host (TextUpdate e) s) = calls_of (_onType (typeInput_spec st e) s).
Proof.
  intros Hst. split.
  - rewrite (emitTypeEvent_with_snapshot e s st Hst). now rewrite typeInput_of_spec.
  - simpl. rewrite onTextUpdate_unfold. cbv zeta.
    rewrite (emitTypeEvent_with_snapshot e _ st) by (destruct s; exact Hst).
    rewrite typeInput_of_spec. apply onType_calls_any_state.
Qed.

(** *** Render pass and text updates *)

Lemma onType_one_edit (typeInput : ITypeData) (s : Adapter) :
  count is_edit (calls_of (_onType typeInput s)) = 1%nat
  /\ List.length (calls_of (_onType typeInput s)) = 1%nat.
Proof. unfold _onType. now destruct (_ || _ || _)%bool. Qed.

(** X4: a render pass followed by a text update.  The render pass mirrors
    the fresh snapshot into the input surface ([updateText] over the whole
    text, then [updateSelection] with the snapshot's offsets); the text
    update is then translated against that snapshot into exactly one edit.
    When the update range is the snapshot's selection (in particular a caret
    with an insertion at the caret), the edit is the plain [type] of the
    event's text. *)
Theorem render_then_textupdate (host host' : Host) (e : TextUpdateEvent) (s : Adapter) :
  let st := _getEditContextState host in
  let calls := calls_of (run [(host, PrepareRender); (host', TextUpdate e)] s) in
  calls
  = [EC_updateText 0 JS.MAX_SAFE_INTEGER st.(content);
     EC_updateSelection st.(selectionStartOffset) st.(selectionEndOffset)]
    ++ calls_of (_onType (typeInput_spec st e) s)
  /\ count is_edit calls = 1%nat
  /\ (e.(updateRangeStart) = st.(selectionStartOffset) ->
      e.(updateRangeEnd) = st.(selectionEndOffset) ->
      calls
      = [EC_updateText 0 JS.MAX_SAFE_INTEGER st.(content);
         EC_updateSelection st.(selectionStartOffset) st.(selectionEndOffset);
         VC_type e.(e_text)]).
Proof.
  intros st calls.
  assert (Hcalls : calls
    = [EC_updateText 0 JS.MAX_SAFE_INTEGER st.(content);
       EC_updateSelection st.(selectionStartOffset) st.(selectionEndOffset)]
      ++ calls_of (_onType (typeInput_spec st e) s)).
  { unfold calls. rewrite run_cons_calls, run_cons_calls. simpl run. 
    change (calls_of (ret tt _)) with (@nil Call). rewrite app_nil_r.
    change (handle host PrepareRender s) with (_updateEditContext host s).
    change (calls_of (_updateEditContext host s))
      with [EC_updateText 0 JS.MAX_SAFE_INTEGER st.(content);
            EC_updateSelection st.(selectionStartOffset) st.(selectionEndOffset)].
    f_equal.
    set (s1 := state_of (_updateEditContext host s)).
    assert (Hs1 : _currentEditContextState s1 = Some st) by reflexivity.
    destruct (emitTypeEvent_derives_typeInput_aux host' s1 st e Hs1) as [_ H].
    rewrite H. apply onType_calls_any_state. }
  split; [exact Hcalls|]. split.
  - rewrite Hcalls. unfold count. rewrite filter_app, length_app. simpl.
    apply (onType_one_edit (typeInput_spec st e) s).
  - intros H1 H2. rewrite Hcalls. simpl. do 2 f_equal.
    unfold _onType, typeInput_spec. rewrite H1, H2, !Z.ltb_irrefl, !Z.sub_diag. simpl.
    now rewrite JSFacts.app_empty_r.
Qed.

Lemma render_then_textupdate_witness :
  calls_of (run [(host_selecting (mkRange 1 3 1 3) 10, PrepareRender);
                 (host_default, TextUpdate (mkTextUpdate "x" 2 2))] initial)
  = [EC_updateText 0 JS.MAX_SAFE_INTEGER EmptyString; EC_updateSelection 2 2; VC_type "x"].
Proof.
  apply (render_then_textupdate (host_selecting (mkRange 1 3 1 3) 10) host_default
           (mkTextUpdate "x" 2 2) initial); reflexivity.
Defined.

Lemma run_keeps_snapshot (evs : list (Host * Event)) :
  forall s, s.(_currentEditContextState) <> None ->
            (state_of (run evs s)).(_currentEditContextState) <> None.
Proof.
  induction evs as [|[host ev] rest IH]; intros s Hs; [exact Hs|].
  rewrite run_cons_state. apply IH.
  destruct (is_PrepareRender ev) eqn:E.
  - destruct ev; try discriminate E. simpl. discriminate.
  - now rewrite (proj1 (handle_fields host ev s) E).
Qed.

(** X5: once a render pass has happened, the adapter has a snapshot after
    every later event, whatever the events are; so from then on no text
    update is dropped: each one is translated into exactly one edit, and
    each text format update reaches the text model. *)
Theorem snapshot_kept_after_render
    (before after : list (Host * Event)) (host : Host) (s : Adapter) :
  let s' := state_of (run (before ++ (host, PrepareRender) :: after) s) in
  s'.(_currentEditContextState) <> None
  /\ (forall host' e, count is_edit (calls_of (handle host' (TextUpdate e) s')) = 1%nat)
  /\ (forall host' formats,
        exists decorations,
          calls_of (handle host' (TextFormatUpdate formats) s')
          = [Model_deltaDecorations s'.(_decorations) decorations]
          /\ List.length decorations = List.length formats).
Proof.
  intros s'.
  assert (Hs' : _currentEditContextState s' <> None).
  { unfold s'. rewrite run_app_state, run_cons_state.
    apply run_keeps_snapshot. simpl. discriminate. }
  split; [exact Hs'|].
  destruct (_currentEditContextState s') as [st|] eqn:E; [|congruence].
  split.
  - intros host' e.
    destruct (emitTypeEvent_derives_typeInput_aux host' s' st e E) as [_ H].
    rewrite H. apply onType_one_edit.
  - intros host' formats. eexists. split.
    + simpl handle. rewrite (handleTextFormatUpdate_with_snapshot host' formats s' st E).
      reflexivity.
    + apply length_map.
Qed.

(** *** Focus *)

Lemma alternating_from_app (b : bool) (l1 l2 : list bool) :
  alternating_from b l1 -> alternating_from (last l1 b) l2 ->
  alternating_from b (l1 ++ l2).
Proof.
  revert b. induction l1 as [|x l1 IH]; intros b H1 H2; [exact H2|].
  destruct H1 as [Hx H1]. split; [exact Hx|].
  apply IH; [exact H1|]. now rewrite last_cons_default in H2.
Qed.

Lemma last_app_default {A} (l1 l2 : list A) (d : A) :
  last (l1 ++ l2) d = last l2 (last l1 d).
Proof.
  revert d. induction l1 as [|x l1 IH]; intros d; [reflexivity|].
  change ((x :: l1) ++ l2) with (x :: (l1 ++ l2)).
  now rewrite !last_cons_default, IH.
Qed.

Lemma focus_notifications_app (l1 l2 : list Call) :
  focus_notifications (l1 ++ l2) = focus_notifications l1 ++ focus_notifications l2.
Proof. unfold focus_notifications. apply flat_map_app. Qed.

Lemma paste_clipboardText_calls (host : Host) (t : string) (s : Adapter) :
  calls_of (paste_clipboardText host t s)
  = if String.eqb t EmptyString then []
    else [Registry_get t;
          VC_paste t
            (match host.(registry_get) t with
             | Some md => (host.(emptySelectionClipboard)
                           && match md.(isFromEmptySelection) with
                              | Some b => b
                              | None => false
                              end)%bool
             | None => false
             end)
            (match host.(registry_get) t with
             | Some md => md.(multicursorText)
             | None => None
             end)
            (match host.(registry_get) t with
             | Some md => md.(mode)
             | None => None
             end)].
Proof.
  unfold paste_clipboardText. destruct (String.eqb t EmptyString); [reflexivity|].
  destruct (registry_get host t); reflexivity.
Qed.

(** Only the focus and blur handlers notify the view model about focus. *)
Lemma handle_focus_notifications (host : Host) (ev : Event) (s : Adapter) :
  focus_notifications (calls_of (handle host ev s))
  = match ev with
    | Focus => if s.(_hasFocus) then [] else [true]
    | Blur => if s.(_hasFocus) then [false] else []
    | _ => []
    end.
Proof.
  destruct ev; simpl handle.
  - rewrite setHasFocus_calls. now destruct (_hasFocus s).
  - rewrite setHasFocus_calls. now destruct (_hasFocus s).
  - reflexivity.
  - rewrite onKeyDown_run. unfold calls_of. simpl snd.
    rewrite !focus_notifications_app.
    destruct (KeyCode_eqb (keyCode e) KEY_IN_COMPOSITION);
      destruct (KeyCode_eqb (keyCode e) Enter);
      destruct (metaKey e && KeyCode_eqb (keyCode e) KeyV)%bool;
      destruct (metaKey e && KeyCode_eqb (keyCode e) KeyX)%bool;
      try rewrite emitAddNewLineEvent_calls;
      fold (@calls_of unit (paste_clipboardText host (clipboard_readText host) s));
      try rewrite paste_clipboardText_calls;
      try destruct (String.eqb (clipboard_readText host) EmptyString);
      reflexivity.
  - reflexivity.
  - destruct (_currentEditContextState s) as [st|] eqn:E.
    + destruct (emitTypeEvent_derives_typeInput_aux host s st e E) as [_ H].
      simpl handle in H. rewrite H. unfold _onType. now destruct (_ || _ || _)%bool.
    + rewrite onTextUpdate_unfold. cbv zeta.
      rewrite emitTypeEvent_without_snapshot by (destruct s; exact E). reflexivity.
  - reflexivity.
  - reflexivity.
  - destruct (_currentEditContextState s) as [st|] eqn:E.
    + now rewrite (handleTextFormatUpdate_with_snapshot host formats s st E).
    + now rewrite handleTextFormatUpdate_without_snapshot.
  - reflexivity.
Qed.

Lemma handle_hasFocus (host : Host) (ev : Event) (s : Adapter) :
  (state_of (handle host ev s)).(_hasFocus)
  = match ev with
    | Focus => true
    | Blur => false
    | _ => s.(_hasFocus)
    end.
Proof.
  destruct ev; try (apply (handle_fields host _ s); reflexivity);
    simpl handle; now rewrite setHasFocus_state.
Qed.

(** X6: over any sequence of events, the focus notifications sent to the
    view model alternate: the first one is the negation of the adapter's
    focus flag at the start and each later one the negation of the one
    before it, so the view model is never told the same value twice in a
    row; and the last value sent is the adapter's focus flag at the end
    (the flag is unchanged when nothing was sent). *)
Theorem focus_notifications_alternate (evs : list (Host * Event)) :
  forall s : Adapter,
    let notified := focus_notifications (calls_of (run evs s)) in
    alternating_from s.(_hasFocus) notified
    /\ (state_of (run evs s)).(_hasFocus) = last notified s.(_hasFocus).
Proof.
  induction evs as [|[host ev] rest IH]; intros s; [split; [exact I | reflexivity]|].
  cbv zeta. rewrite run_cons_calls, run_cons_state, focus_notifications_app.
  destruct (IH (state_of (handle host ev s))) as [Halt Hlast]. cbv zeta in Halt, Hlast.
  rewrite handle_hasFocus in Halt, Hlast.
  rewrite handle_focus_notifications, last_app_default.
  destruct ev; destruct (_hasFocus s) eqn:Hf; simpl app; simpl last;
    try (split; assumption);
    (split; [split; [reflexivity | exact Halt] | exact Hlast]).
Qed.


(** *** Keydown *)

Lemma count_app (p : Call -> bool) (l1 l2 : list Call) :
  count p (l1 ++ l2) = (count p l1 + count p l2)%nat.
Proof. unfold count. now rewrite filter_app, length_app. Qed.

(** The listener with a settled read: when the paste chord's read is
    rejected the listener stops behind the read; otherwise it is the
    listener [onKeyDown]. *)
Lemma onKeyDown_settled_run (host : Host) (readRejected : bool)
    (e : StandardKeyboardEvent) (s : Adapter) :
  onKeyDown_settled host readRejected e s
  = if ((e.(metaKey) && KeyCode_eqb e.(keyCode) KeyV) && readRejected)%bool
    then (tt, s, [Ev_preventDefault; Clipboard_readText])
    else onKeyDown host e s.
Proof.
  destruct e as [kc meta].
  destruct kc; destruct meta; destruct readRejected;
    unfold onKeyDown_settled, onKeyDown; simpl keyCode; simpl metaKey;
    simpl KeyCode_eqb; simpl andb; unfold when; try reflexivity.
  unfold bind, ret, call. cbn -[paste_clipboardText].
  pose proof (paste_clipboardText_state host (clipboard_readText host) s) as Hs.
  unfold state_of in Hs.
  destruct (paste_clipboardText host (clipboard_readText host) s) as [[[] s1] t1].
  simpl in Hs. subst s1. reflexivity.
Qed.

(** X8: every keydown leaves the adapter's fields alone.  Unless the paste
    chord's clipboard read is rejected, the listener is [onKeyDown] and the
    key event is forwarded to the view controller exactly once, as the last
    call.  When the paste chord's read is rejected the listener stops at the
    read: [preventDefault] and [readText] are its only calls, nothing is
    pasted or cut and the key event is not forwarded.  [stopPropagation] is
    called exactly when the key code is [KEY_IN_COMPOSITION].  Without the
    meta key nothing touches the clipboard, the metadata registry, paste or
    cut; and a key that is none of Enter, V, X and [KEY_IN_COMPOSITION] is
    only forwarded. *)
Theorem keydown_forwarding (host : Host) (readRejected : bool)
    (e : StandardKeyboardEvent) (s : Adapter) :
  let pasteChord := (e.(metaKey) && KeyCode_eqb e.(keyCode) KeyV)%bool in
  let calls := calls_of (onKeyDown_settled host readRejected e s) in
  state_of (onKeyDown_settled host readRejected e s) = s
  /\ ((pasteChord && readRejected)%bool = false ->
      onKeyDown_settled host readRejected e s = onKeyDown host e s
      /\ exists before, calls = before ++ [VC_emitKeyDown e]
                        /\ count is_VC_emitKeyDown before = 0%nat)
  /\ ((pasteChord && readRejected)%bool = true ->
      calls = [Ev_preventDefault; Clipboard_readText]
      /\ count is_VC_emitKeyDown calls = 0%nat)
  /\ count is_Ev_stopPropagation calls
     = (if KeyCode_eqb e.(keyCode) KEY_IN_COMPOSITION then 1 else 0)%nat
  /\ (e.(metaKey) = false -> existsb is_clipboard_related calls = false)
  /\ (forall code, e.(keyCode) = OtherKey code -> calls = [VC_emitKeyDown e]).
Proof.
  cbv zeta. rewrite onKeyDown_settled_run.
  destruct ((metaKey e && KeyCode_eqb (keyCode e) KeyV) && readRejected)%bool eqn:Hrej.
  - apply andb_true_iff in Hrej as [Hchord _].
    apply andb_true_iff in Hchord as [Hm Hk].
    destruct e as [kc meta]. simpl in Hm, Hk. subst meta.
    destruct kc; try discriminate Hk.
    cbn. repeat split; intros; try discriminate.
  - rewrite onKeyDown_run.
    rewrite emitAddNewLineEvent_calls, paste_clipboardText_calls,
      ensureClipboardGetsEditorSelection_run.
    cbn [state_of calls_of fst snd].
    split; [reflexivity|].
    split; [|split; [|split; [|split]]].
    + intros _. split; [reflexivity|]. eexists. split.
      * rewrite !app_assoc. reflexivity.
      * destruct (KeyCode_eqb (keyCode e) KEY_IN_COMPOSITION);
          destruct (KeyCode_eqb (keyCode e) Enter);
          destruct (metaKey e && KeyCode_eqb (keyCode e) KeyV)%bool;
          destruct (metaKey e && KeyCode_eqb (keyCode e) KeyX)%bool;
          destruct (String.eqb (clipboard_readText host) EmptyString); reflexivity.
    + intros H. discriminate H.
    + destruct (KeyCode_eqb (keyCode e) KEY_IN_COMPOSITION);
        destruct (KeyCode_eqb (keyCode e) Enter);
        destruct (metaKey e && KeyCode_eqb (keyCode e) KeyV)%bool;
        destruct (metaKey e && KeyCode_eqb (keyCode e) KeyX)%bool;
        destruct (String.eqb (clipboard_readText host) EmptyString); reflexivity.
    + intros Hm. rewrite Hm. simpl andb.
      destruct (KeyCode_eqb (keyCode e) KEY_IN_COMPOSITION);
        destruct (KeyCode_eqb (keyCode e) Enter); reflexivity.
    + intros code Hk. rewrite Hk. simpl KeyCode_eqb. rewrite !andb_false_r. reflexivity.
Qed.

Lemma keydown_forwarding_witness :
  calls_of (onKeyDown_settled (host_clipboard "x") true (mkKeyboardEvent KeyV true) initial)
  = [Ev_preventDefault; Clipboard_readText]
  /\ onKeyDown_settled (host_clipboard "x") false (mkKeyboardEvent KeyV true) initial
     = onKeyDown (host_clipboard "x") (mkKeyboardEvent KeyV true) initial
  /\ calls_of (onKeyDown_settled host_default true (mkKeyboardEvent (OtherKey 65) false) initial)
     = [VC_emitKeyDown (mkKeyboardEvent (OtherKey 65) false)].
Proof.
  pose proof (keydown_forwarding (host_clipboard "x") true (mkKeyboardEvent KeyV true) initial)
    as Hrejected.
  pose proof (keydown_forwarding (host_clipboard "x") false (mkKeyboardEvent KeyV true) initial)
    as Hresolved.
  pose proof (keydown_forwarding host_default true (mkKeyboardEvent (OtherKey 65) false) initial)
    as Hother.
  cbv zeta in Hrejected, Hresolved, Hother.
  destruct Hrejected as (_ & _ & Hrejected & _).
  destruct Hresolved as (_ & Hresolved & _).
  destruct Hother as (_ & _ & _ & _ & _ & Hother).
  split; [|split].
  - apply Hrejected. reflexivity.
  - apply Hresolved. reflexivity.
  - apply (Hother 65). reflexivity.
Defined.

(** *** Paste and the clipboard metadata *)

(** X9: what a paste keydown forwards for a non-empty clipboard text.
    Without stored metadata for that exact text the paste is forwarded with
    [pasteOnNewLine = false], no multicursor text and no mode.  With stored
    metadata the multicursor text and the mode are passed through, and
    [pasteOnNewLine] is true exactly when the editor option
    [emptySelectionClipboard] is on and the metadata says the text was copied
    from an empty selection. *)
Theorem paste_forwards_metadata (host : Host) (e : StandardKeyboardEvent) (s : Adapter) :
  e.(metaKey) = true ->
  e.(keyCode) = KeyV ->
  host.(clipboard_readText) <> EmptyString ->
  let t := host.(clipboard_readText) in
  let calls := calls_of (onKeyDown host e s) in
  (host.(registry_get) t = None ->
   calls = [Ev_preventDefault; Clipboard_readText; Registry_get t;
            VC_paste t false None None; VC_emitKeyDown e])
  /\ (forall md,
        host.(registry_get) t = Some md ->
        exists pasteOnNewLine,
          calls = [Ev_preventDefault; Clipboard_readText; Registry_get t;
                   VC_paste t pasteOnNewLine md.(multicursorText) md.(mode);
                   VC_emitKeyDown e]
          /\ (pasteOnNewLine = true
              <-> host.(emptySelectionClipboard) = true
                  /\ md.(isFromEmptySelection) = Some true)).
Proof.
  intros Hm Hk Ht t calls. subst calls.
  rewrite onKeyDown_run, paste_clipboardText_calls. cbn [calls_of snd].
  rewrite Hm, Hk. simpl KeyCode_eqb. simpl andb. simpl app. fold t.
  destruct (String.eqb_spec t EmptyString) as [E|E]; [contradiction|].
  split.
  - intros Hnone. now rewrite Hnone.
  - intros md Hsome. rewrite Hsome. eexists. split; [reflexivity|].
    destruct (emptySelectionClipboard host); destruct (isFromEmptySelection md) as [[|]|];
      simpl; split; try tauto; try discriminate;
      intros [H1 H2]; try discriminate H1; try discriminate H2.
Qed.

Lemma paste_forwards_metadata_witness :
  calls_of (onKeyDown
              (host_pasting true "x"
                 (registry_with "x" (mkMetadata 1 (Some true) (Some ["x"%string]) None)))
              (mkKeyboardEvent KeyV true) initial)
  = [Ev_preventDefault; Clipboard_readText; Registry_get "x";
     VC_paste "x" true (Some ["x"%string]) None; VC_emitKeyDown (mkKeyboardEvent KeyV true)].
Proof.
  pose proof (paste_forwards_metadata
                (host_pasting true "x"
                   (registry_with "x" (mkMetadata 1 (Some true) (Some ["x"%string]) None)))
                (mkKeyboardEvent KeyV true) initial eq_refl eq_refl) as H.
  assert (Hne : clipboard_readText
                  (host_pasting true "x"
                     (registry_with "x" (mkMetadata 1 (Some true) (Some ["x"%string]) None)))
                <> EmptyString) by discriminate.
  destruct (H Hne) as [_ Hsome].
  destruct (Hsome _ eq_refl) as (p & Hcalls & Hp).
  rewrite Hcalls. destruct p; [reflexivity|].
  assert (false = true) by (apply Hp; split; reflexivity). discriminate.
Defined.

(** X10: copy (or cut), then paste.  When the registry still holds what the
    copy stored, and the clipboard hands back the copied text (on Firefox:
    the copied text with every CR LF turned into LF, as that browser pastes
    it), the paste forwards the multicursor text and the mode recorded at
    copy time, and pastes on a new line exactly when the option
    [emptySelectionClipboard] is on and the copy came from an empty
    selection. *)
Theorem copy_then_paste_roundtrip
    (hostCopy hostPaste : Host) (e : StandardKeyboardEvent) (s s' : Adapter) :
  let copied := hostCopy.(dataToCopy) in
  (forall key data,
     In (Registry_set key data) (calls_of (handle hostCopy Copy s)) ->
     hostPaste.(registry_get) key = Some data) ->
  hostPaste.(clipboard_readText)
  = (if hostCopy.(isFirefox) then JS.replace_crlf copied.(d_text) else copied.(d_text)) ->
  hostPaste.(clipboard_readText) <> EmptyString ->
  e.(metaKey) = true ->
  e.(keyCode) = KeyV ->
  calls_of (handle hostPaste (KeyDown e) s')
  = [Ev_preventDefault; Clipboard_readText; Registry_get hostPaste.(clipboard_readText);
     VC_paste hostPaste.(clipboard_readText)
       (hostPaste.(emptySelectionClipboard) && copied.(d_isFromEmptySelection))
       copied.(d_multicursorText) copied.(d_mode);
     VC_emitKeyDown e].
Proof.
  intros copied Hreg Hclip Hne Hm Hk.
  simpl handle. rewrite onKeyDown_run, paste_clipboardText_calls. cbn [calls_of snd].
  rewrite Hm, Hk. simpl KeyCode_eqb. simpl andb. simpl app.
  destruct (String.eqb_spec (clipboard_readText hostPaste) EmptyString) as [E|E];
    [contradiction|].
  rewrite (Hreg (clipboard_readText hostPaste)
             (mkMetadata 1 (Some copied.(d_isFromEmptySelection))
                copied.(d_multicursorText) copied.(d_mode))).
  - reflexivity.
  - simpl handle. rewrite ensureClipboardGetsEditorSelection_run.
    cbn [calls_of snd]. left. fold copied. now rewrite Hclip.
Qed.

Lemma copy_then_paste_roundtrip_witness :
  let data := mkMetadata 1 (Some true) (Some [text_a_crlf_b]) (Some "plaintext"%string) in
  let key := JS.replace_crlf text_a_crlf_b in
  calls_of (handle (host_pasting true key (registry_with key data))
              (KeyDown (mkKeyboardEvent KeyV true)) initial)
  = [Ev_preventDefault; Clipboard_readText; Registry_get key;
     VC_paste key true (Some [text_a_crlf_b]) (Some "plaintext"%string);
     VC_emitKeyDown (mkKeyboardEvent KeyV true)].
Proof.
  intros data key.
  apply (copy_then_paste_roundtrip (host_copying_line true text_a_crlf_b)
           (host_pasting true key (registry_with key data))
           (mkKeyboardEvent KeyV true) initial initial).
  - intros k d [H|[H|[]]]; [|discriminate H].
    inversion H. reflexivity.
  - reflexivity.
  - discriminate.
  - reflexivity.
  - reflexivity.
Defined.

(** *** The new line splice at its bounds *)

Lemma length_take (n : nat) (s : string) :
  String.length (JS.take n s) = Nat.min n (String.length s).
Proof.
  revert s. induction n as [|n IH]; intros [|c s]; simpl; try reflexivity.
  now rewrite IH.
Qed.

Lemma take_beyond (n : nat) (s : string) :
  (String.length s <= n)%nat -> JS.take n s = s.
Proof.
  revert s. induction n as [|n IH]; intros [|c s] H; simpl in *; try reflexivity.
  - lia.
  - rewrite IH; [reflexivity | lia].
Qed.

Lemma drop_beyond (n : nat) (s : string) :
  (String.length s <= n)%nat -> JS.drop n s = EmptyString.
Proof.
  revert s. induction n as [|n IH]; intros [|c s] H; simpl in *; try reflexivity.
  - lia.
  - apply IH. lia.
Qed.

(** X11: the text that [_emitAddNewLineEvent] pushes into the input surface,
    for every selection the surface can report.  Its length is the clamped
    selection start, plus one, plus what remains after the clamped selection
    end; so a caret adds exactly one code unit.  Offsets at or beyond the
    end of the text append the line feed, offsets at or below zero put it in
    front, and a selection of the whole text leaves only the line feed. *)
Theorem newline_splice_bounds (host : Host) (s : Adapter) :
  let t := host.(editContext_text) in
  let a := host.(editContext_selectionStart) in
  let b := host.(editContext_selectionEnd) in
  exists pushed,
    calls_of (_emitAddNewLineEvent host s)
    = [EC_updateText 0 JS.MAX_SAFE_INTEGER pushed; VC_type JS.NL]
    /\ JS.strlen pushed
       = JS.clamp (JS.strlen t) a + 1 + (JS.strlen t - JS.clamp (JS.strlen t) b)
    /\ (a = b -> JS.strlen pushed = JS.strlen t + 1)
    /\ (JS.strlen t <= a -> JS.strlen t <= b -> pushed = (t ++ JS.NL)%string)
    /\ (a <= 0 -> b <= 0 -> pushed = (JS.NL ++ t)%string)
    /\ (a <= 0 -> JS.strlen t <= b -> pushed = JS.NL).
Proof.
  intros t a b. rewrite emitAddNewLineEvent_calls. cbv zeta. fold t a b.
  eexists. split; [reflexivity|].
  pose proof (JSFacts.strlen_nonneg t) as Hlen.
  pose proof (JSFacts.clamp_range (JS.strlen t) a Hlen) as Ha.
  pose proof (JSFacts.clamp_range (JS.strlen t) b Hlen) as Hb.
  assert (Hpushed :
    JS.strlen (JS.take (Z.to_nat (JS.clamp (JS.strlen t) a)) t ++ JS.NL
               ++ JS.drop (Z.to_nat (JS.clamp (JS.strlen t) b)) t)
    = JS.clamp (JS.strlen t) a + 1 + (JS.strlen t - JS.clamp (JS.strlen t) b)).
  { unfold JS.strlen at 1. rewrite !JSFacts.length_app, length_take, JSFacts.length_drop.
    unfold JS.strlen in *. simpl String.length. lia. }
  split; [exact Hpushed|]. split; [|split; [|split]].
  - intros Hab. rewrite Hpushed, Hab. lia.
  - intros H1 H2. unfold JS.clamp.
    rewrite take_beyond by (unfold JS.strlen in *; lia).
    rewrite drop_beyond by (unfold JS.strlen in *; lia). reflexivity.
  - intros H1 H2. unfold JS.clamp.
    replace (Z.to_nat (Z.min (Z.max a 0) (JS.strlen t))) with O by lia.
    replace (Z.to_nat (Z.min (Z.max b 0) (JS.strlen t))) with O by lia.
    now destruct t.
  - intros H1 H2. unfold JS.clamp.
    replace (Z.to_nat (Z.min (Z.max a 0) (JS.strlen t))) with O by lia.
    rewrite drop_beyond by (unfold JS.strlen in *; lia).
    now destruct t.
Qed.

Lemma newline_splice_bounds_witness :
  calls_of (_emitAddNewLineEvent (host_surface "ab" 7 9) initial)
  = [EC_updateText 0 JS.MAX_SAFE_INTEGER ("ab" ++ JS.NL)%string; VC_type JS.NL].
Proof.
  destruct (newline_splice_bounds (host_surface "ab" 7 9) initial)
    as (pushed & Hcalls & _ & _ & Hend & _).
  rewrite Hcalls, Hend; [reflexivity | cbv; discriminate | cbv; discriminate].
Defined.

(** *** The registry key on Firefox *)

Lemma replace_crlf_shorter_aux (s : string) :
  (JS.has_crlf s = true ->
   (String.length (JS.replace_crlf s) < String.length s)%nat)
  /\ forall c,
      JS.has_crlf (String c s) = true ->
      (String.length (JS.replace_crlf (String c s)) < S (String.length s))%nat.
Proof.
  induction s as [|c1 tl [IH0 IH1]].
  - split; [discriminate|]. intros c H. discriminate H.
  - split; [apply IH1|]. intros c H.
    rewrite JSFacts.replace_crlf_step.
    change (JS.has_crlf (String c (String c1 tl)))
      with ((Ascii.eqb c JS.CR && Ascii.eqb c1 JS.LF) || JS.has_crlf (String c1 tl))%bool in H.
    destruct (Ascii.eqb c JS.CR && Ascii.eqb c1 JS.LF)%bool.
    + simpl. pose proof (proj1 (JSFacts.replace_crlf_length_aux tl)). lia.
    + simpl in H. specialize (IH1 c1 H). simpl. simpl in IH1. lia.
Qed.

(** X12: the key under which a copy stores its metadata on Firefox never is
    longer than the copied text; it is the copied text itself exactly when
    that text has no CR LF; and for a copied text [s1 ++ CR LF ++ s2] it is
    the key of [s1], one LF, and the key of [s2].  The text written to the
    clipboard is the copied text in all these cases. *)
Theorem firefox_registry_key (host : Host) (s : Adapter) :
  host.(isFirefox) = true ->
  let copied := host.(dataToCopy).(d_text) in
  exists key,
    stored_keys (calls_of (handle host Copy s)) = [key]
    /\ written_texts (calls_of (handle host Copy s)) = [copied]
    /\ JS.strlen key <= JS.strlen copied
    /\ (key = copied <-> JS.has_crlf copied = false)
    /\ (forall s1 s2,
          copied = (s1 ++ CRLF s2)%string ->
          key = (JS.replace_crlf s1 ++ String JS.LF (JS.replace_crlf s2))%string).
Proof.
  intros Hff copied. exists (JS.replace_crlf copied).
  simpl handle. rewrite ensureClipboardGetsEditorSelection_run. cbv zeta.
  rewrite Hff. fold copied. cbn [calls_of snd stored_keys written_texts flat_map app].
  split; [reflexivity|]. split; [reflexivity|]. split; [|split].
  - unfold JS.strlen. pose proof (proj1 (JSFacts.replace_crlf_length_aux copied)). lia.
  - split.
    + intros Heq. destruct (JS.has_crlf copied) eqn:E; [|reflexivity].
      pose proof (proj1 (replace_crlf_shorter_aux copied) E) as Hlt.
      rewrite Heq in Hlt. lia.
    + apply JSFacts.replace_crlf_without_crlf.
  - intros s1 s2 Hsplit. rewrite Hsplit. apply JSFacts.replace_crlf_app_crlf.
Qed.

Lemma firefox_registry_key_witness :
  stored_keys (calls_of (handle (host_copying true "abc") Copy initial)) = ["abc"%string].
Proof.
  destruct (firefox_registry_key (host_copying true "abc") initial eq_refl)
    as (key & Hkey & _ & _ & Hsame & _).
  rewrite Hkey. f_equal. apply Hsame. reflexivity.
Defined.

(** *** Text format updates *)

(** X13: two text format updates in a row, with a snapshot.  Each one asks
    the text model to exchange the decoration ids the adapter holds for one
    new decoration per reported format; the ids the model returns for the
    first update are the ones handed back as old in the second, and the
    adapter ends up holding what the model returned for the second.  An
    update without formats hands in the old ids with no new decoration. *)
Theorem format_updates_replace
    (hostA hostB : Host) (formatsA formatsB : list TextFormat)
    (s : Adapter) (st : EditContextState) :
  s.(_currentEditContextState) = Some st ->
  let decorationsA := map (decoration_of hostA st.(rangeOfContent)) formatsA in
  let decorationsB := map (decoration_of hostB st.(rangeOfContent)) formatsB in
  let idsA := hostA.(deltaDecorations) s.(_decorations) decorationsA in
  let r := run [(hostA, TextFormatUpdate formatsA); (hostB, TextFormatUpdate formatsB)] s in
  calls_of r
  = [Model_deltaDecorations s.(_decorations) decorationsA;
     Model_deltaDecorations idsA decorationsB]
  /\ (state_of r).(_decorations) = hostB.(deltaDecorations) idsA decorationsB
  /\ List.length decorationsA = List.length formatsA
  /\ List.length decorationsB = List.length formatsB
  /\ (formatsB = [] -> decorationsB = []).
Proof.
  intros Hst decorationsA decorationsB idsA r. subst r.
  rewrite !run_cons_calls, !run_cons_state. simpl run. simpl handle.
  rewrite (handleTextFormatUpdate_with_snapshot hostA formatsA s st Hst). cbv zeta.
  cbn [state_of calls_of fst snd].
  fold decorationsA. fold idsA.
  set (s1 := mkAdapter (_currentEditContextState s) idsA (_compositionRange s) (_hasFocus s)).
  assert (Hs1 : _currentEditContextState s1 = Some st) by exact Hst.
  rewrite (handleTextFormatUpdate_with_snapshot hostB formatsB s1 st Hs1). cbv zeta.
  cbn [state_of calls_of fst snd ret app _decorations s1]. fold decorationsB.
  repeat split.
  - apply length_map.
  - apply length_map.
  - intros H. subst decorationsB. now rewrite H.
Qed.

Lemma format_updates_replace_witness :
  calls_of (run [(host_default, TextFormatUpdate [mkTextFormat 0 1 "Solid" "Thin"]);
                 (host_default, TextFormatUpdate [])] adapter_hello)
  = [Model_deltaDecorations []
       [mkDecoration (mkRange 1 1 1 1) "textFormatDecoration"
          "ime underline-style-solid underline-thickness-thin"];
     Model_deltaDecorations [] []].
Proof.
  apply (format_updates_replace host_default host_default
           [mkTextFormat 0 1 "Solid" "Thin"] [] adapter_hello snapshot_hello eq_refl).
Defined.

Lemma lower_ascii_not_upper (c : ascii) : is_upper (JS.lower_ascii c) = false.
Proof.
  destruct c as [[] [] [] [] [] [] [] []]; reflexivity.
Qed.

Lemma lower_ascii_fixes_non_upper (c : ascii) :
  is_upper c = false -> JS.lower_ascii c = c.
Proof.
  destruct c as [[] [] [] [] [] [] [] []]; intros H; try reflexivity; discriminate H.
Qed.

Lemma toLowerCase_not_upper (s : string) :
  string_forallb (fun c => negb (is_upper c)) (JS.toLowerCase s) = true.
Proof.
  induction s as [|c s IH]; [reflexivity|].
  simpl. now rewrite lower_ascii_not_upper, IH.
Qed.

Lemma string_forallb_app (p : ascii -> bool) (s1 s2 : string) :
  string_forallb p (s1 ++ s2)%string = (string_forallb p s1 && string_forallb p s2)%bool.
Proof.
  induction s1 as [|c s1 IH]; [reflexivity|].
  simpl. now rewrite IH, andb_assoc.
Qed.

(** X14: the decoration built for a reported text format is described as
    [textFormatDecoration]; its inline class name is ["ime"], the underline
    style class and the underline thickness class, separated by single
    spaces, with the two labels lower-cased: whatever labels the host
    reports, the class name has no upper-case ASCII letter, it has the same
    length as with the labels as reported, and labels without upper-case
    letters appear in it unchanged. *)
Theorem decoration_class_name (host : Host) (r : Range) (f : TextFormat) :
  let d := decoration_of host r f in
  d.(description) = "textFormatDecoration"%string
  /\ d.(inlineClassName)
     = ("ime underline-style-" ++ JS.toLowerCase f.(underlineStyle)
        ++ " underline-thickness-" ++ JS.toLowerCase f.(underlineThickness))%string
  /\ string_forallb (fun c => negb (is_upper c)) d.(inlineClassName) = true
  /\ String.length d.(inlineClassName)
     = (41 + String.length f.(underlineStyle) + String.length f.(underlineThickness))%nat
  /\ (string_forallb (fun c => negb (is_upper c)) f.(underlineStyle) = true ->
      string_forallb (fun c => negb (is_upper c)) f.(underlineThickness) = true ->
      d.(inlineClassName)
      = ("ime underline-style-" ++ f.(underlineStyle)
         ++ " underline-thickness-" ++ f.(underlineThickness))%string).
Proof.
  assert (Hlen : forall s, String.length (JS.toLowerCase s) = String.length s).
  { induction s as [|c s IH]; simpl; [reflexivity | now rewrite IH]. }
  assert (Hfix : forall s, string_forallb (fun c => negb (is_upper c)) s = true ->
                           JS.toLowerCase s = s).
  { induction s as [|c s IH]; simpl; [reflexivity|].
    intros H. apply andb_true_iff in H as [Hc Hs].
    rewrite lower_ascii_fixes_non_upper by (now apply negb_true_iff).
    now rewrite IH. }
  cbv zeta. split; [reflexivity|].
  assert (Hname : inlineClassName (decoration_of host r f)
                  = ("ime underline-style-" ++ JS.toLowerCase f.(underlineStyle)
                     ++ " underline-thickness-"
                     ++ JS.toLowerCase f.(underlineThickness))%string).
  { unfold decoration_of. cbn [inlineClassName JS.join].
    change ("ime" ++ " " ++ ?x)%string with ("ime " ++ x)%string.
    rewrite !JSFacts.app_assoc. reflexivity. }
  split; [exact Hname|]. rewrite Hname. split; [|split].
  - rewrite !string_forallb_app, !toLowerCase_not_upper. reflexivity.
  - rewrite !JSFacts.length_app, !Hlen. simpl. lia.
  - intros H1 H2. now rewrite (Hfix _ H1), (Hfix _ H2).
Qed.

Lemma decoration_class_name_witness :
  (decoration_of host_default (mkRange 1 1 1 1) (mkTextFormat 0 1 "solid" "thin")).(inlineClassName)
  = "ime underline-style-solid underline-thickness-thin"%string.
Proof.
  apply (decoration_class_name host_default (mkRange 1 1 1 1)
           (mkTextFormat 0 1 "solid" "thin")); reflexivity.
Defined.

(** *** Composition over arbitrary event sequences *)

Lemma handle_composing (host : Host) (ev : Event) (s : Adapter) :
  isSome (state_of (handle host ev s)).(_compositionRange)
  = match ev with
    | CompositionStart => true
    | CompositionEnd => false
    | _ => isSome s.(_compositionRange)
    end.
Proof.
  destruct ev; try reflexivity.
  - simpl handle. now rewrite setHasFocus_state.
  - simpl handle. now rewrite setHasFocus_state.
  - simpl handle. now rewrite onKeyDown_state.
  - simpl handle. rewrite onTextUpdate_state. simpl.
    now destruct (_compositionRange s).
  - now rewrite (proj1 (proj2 (proj2 (proj2
                   (handle_fields host (TextFormatUpdate formats) s)))) eq_refl).
Qed.

(** X15: after any sequence of events a composition range is present
    exactly when the last compositionstart or compositionend among them was
    a compositionstart (or, without any, when one was present before);
    keys, text updates, focus changes, copies, format updates and render
    passes in between never create or drop it. *)
Theorem composition_range_tracks_events (evs : list (Host * Event)) :
  forall s : Adapter,
    isSome (state_of (run evs s)).(_compositionRange)
    = composing_after evs (isSome s.(_compositionRange)).
Proof.
  induction evs as [|[host ev] rest IH]; intros s; [reflexivity|].
  rewrite run_cons_state, IH, handle_composing. reflexivity.
Qed.

(** ** Properties of the debug registrations *)

Module DebugContributionFacts.
Import DebugContribution.

(** The bitwise or of modifier flags does not depend on their order. *)
Lemma chord_order (k : KeyCode) :
  chord [Shift; CtrlCmd] k = chord [CtrlCmd; Shift] k.
Proof. reflexivity. Qed.

(** Registering keeps what a registry held before. *)
Lemma load_workbenchActions (r : Registries) :
  (load r).(workbenchActions) = r.(workbenchActions) ++ registered.(workbenchActions).
Proof.
  unfold registered, load, statements. simpl.
  repeat rewrite <- app_assoc. reflexivity.
Qed.

Lemma load_defaultPanelId (r : Registries) :
  (load r).(defaultPanelId) = Some REPL_ID.
Proof. reflexivity. Qed.

(** C4 (amended): the nine debug-session actions and the console toggle are
    each registered once, all under the category "Debug".  The keybinding
    context depends on the debug-mode flag for six of them: negated for
    start, asserted for step-over, step-into, step-out, stop and continue.
    Restart, pause, open-launch-configuration and the console toggle are
    registered without a context. *)
Theorem session_actions_category_and_context :
  map (fun dc => (fst dc).(ctor)) (sessionRegistrations registered)
  = sessionAndConsoleActions
  /\ (forall d category,
        In (d, category) (sessionRegistrations registered) ->
        category = localize "debugCategory" "Debug")
  /\ contextOf StartDebugAction registered = Some (Some (KbExpr_not CONTEXT_IN_DEBUG_MODE))
  /\ (forall a,
        In a [StepOverDebugAction; StepIntoDebugAction; StepOutDebugAction;
              StopDebugAction; ContinueAction] ->
        contextOf a registered = Some (Some (KbExpr_has CONTEXT_IN_DEBUG_MODE)))
  /\ (forall a,
        In a [RestartDebugAction; PauseAction; ConfigureAction; ToggleReplAction] ->
        contextOf a registered = Some None)
  /\ (forall d category,
        In (d, category) (sessionRegistrations registered) ->
        (conditionedOnDebugMode d = true
         <-> In d.(ctor) [StartDebugAction; StepOverDebugAction; StepIntoDebugAction;
                          StepOutDebugAction; StopDebugAction; ContinueAction])).
Proof.
  split; [reflexivity|]. split.
  { intros d category H. cbv in H.
    repeat (destruct H as [H|H]; [now inversion H|]). contradiction. }
  split; [reflexivity|]. split.
  { intros a H. simpl in H.
    repeat (destruct H as [H|H]; [subst a; reflexivity|]). contradiction. }
  split.
  { intros a H. simpl in H.
    repeat (destruct H as [H|H]; [subst a; reflexivity|]). contradiction. }
  intros d category H. cbv in H.
  repeat (destruct H as [H|H];
          [inversion H; subst d; cbv; split;
           [intros E; try discriminate E; tauto
           |intros E; try reflexivity;
            repeat (destruct E as [E|E]; [discriminate E|]); contradiction]|]).
  contradiction.
Qed.

Lemma session_actions_category_and_context_witness :
  contextOf StepIntoDebugAction registered = Some (Some (KbExpr_has CONTEXT_IN_DEBUG_MODE))
  /\ contextOf PauseAction registered = Some None.
Proof.
  destruct session_actions_category_and_context as (_ & _ & _ & Hhas & Hnone & _).
  split.
  - apply Hhas. simpl. tauto.
  - apply Hnone. simpl. tauto.
Defined.

(** C4 (as stated, refuted): not every one of the ten registrations is
    conditioned on the debug-mode flag; restart is registered with neither a
    keybinding nor a context. *)
Lemma restart_registered_without_context :
  In (descriptor RestartDebugAction None None None, debugCategory)
     (sessionRegistrations registered)
  /\ ~ (forall d category,
          In (d, category) (sessionRegistrations registered) ->
          conditionedOnDebugMode d = true).
Proof.
  assert (H : In (descriptor RestartDebugAction None None None, debugCategory)
                (sessionRegistrations registered)).
  { cbv. do 4 right. left. reflexivity. }
  split; [exact H|]. intros Hall. specialize (Hall _ _ H). discriminate Hall.
Qed.


(** The membership test of a registration, as a case split. *)
Ltac each_registration H :=
  cbv in H;
  repeat (destruct H as [H|H]; [inversion H; subst; clear H|]);
  try contradiction.

(** X16: no two workbench actions compete for a key.  Two different
    registered actions have the same keybinding only when their contexts
    exclude each other, so for either value of the debug-mode flag at most
    one of them is enabled; the one shared key is F5, registered for start
    with the negated debug-mode flag and for continue with the asserted one,
    and exactly one of these two is enabled at any time.  F9, the editor keybinding of
    toggle-breakpoint, is not used by any workbench action. *)
Theorem keybindings_never_conflict :
  (forall d1 c1 d2 c2 kb inDebugMode,
      In (d1, c1) registered.(workbenchActions) ->
      In (d2, c2) registered.(workbenchActions) ->
      d1.(ctor) <> d2.(ctor) ->
      d1.(keybindings) = Some kb ->
      d2.(keybindings) = Some kb ->
      (enabled inDebugMode d1.(keybindingContext)
       && enabled inDebugMode d2.(keybindingContext))%bool = false
      /\ kb = mkKeybindings (chord [] F5)
      /\ In (d1.(ctor), d1.(keybindingContext), (d2.(ctor), d2.(keybindingContext)))
           [(StartDebugAction, Some (KbExpr_not CONTEXT_IN_DEBUG_MODE),
             (ContinueAction, Some (KbExpr_has CONTEXT_IN_DEBUG_MODE)));
            (ContinueAction, Some (KbExpr_has CONTEXT_IN_DEBUG_MODE),
             (StartDebugAction, Some (KbExpr_not CONTEXT_IN_DEBUG_MODE)))])
  /\ (forall inDebugMode ctxStart ctxContinue,
        contextOf StartDebugAction registered = Some ctxStart ->
        contextOf ContinueAction registered = Some ctxContinue ->
        enabled inDebugMode ctxStart = negb (enabled inDebugMode ctxContinue))
  /\ ~ In (chord [] F9) (map snd (workbenchKeybindings registered)).
Proof.
  split; [|split].
  - intros d1 c1 d2 c2 kb inDebugMode H1 H2 Hne Hk1 Hk2.
    each_registration H1; each_registration H2;
      simpl in Hne, Hk1, Hk2; try congruence;
      (split; [now destruct inDebugMode | split; [now inversion Hk1 | simpl; tauto]]).
  - intros inDebugMode ctxStart ctxContinue H1 H2.
    cbv in H1, H2. inversion H1. inversion H2. now destruct inDebugMode.
  - cbv. intros H. repeat (destruct H as [H|H]; [discriminate H|]). exact H.
Qed.

Lemma keybindings_never_conflict_witness :
  enabled true (Some (KbExpr_not CONTEXT_IN_DEBUG_MODE))
  = negb (enabled true (Some (KbExpr_has CONTEXT_IN_DEBUG_MODE))).
Proof.
  apply (proj1 (proj2 keybindings_never_conflict)); reflexivity.
Defined.

(** X17: every action class the module refers to is registered exactly
    once, as an editor action or as a workbench action.  "Show Debug" is
    registered under the identifier of the one viewlet the module registers
    ([debug.VIEWLET_ID]).  A workbench action registered without a
    keybinding has neither a context nor a weight. *)
Theorem actions_registered_once :
  NoDup (registeredActions registered)
  /\ (forall a : Action, In a (registeredActions registered))
  /\ map (fun dc => (fst dc).(id))
       (filter (fun dc => Action_eqb (fst dc).(ctor) OpenDebugViewletAction)
          registered.(workbenchActions))
     = map v_id registered.(viewlets)
  /\ map v_id registered.(viewlets) = [VIEWLET_ID]
  /\ (forall d category,
        In (d, category) registered.(workbenchActions) ->
        d.(keybindings) = None ->
        d.(keybindingContext) = None /\ d.(keybindingWeight) = None).
Proof.
  split; [|split; [|split; [|split]]].
  - cbv. repeat (constructor; [intros H; repeat (destruct H as [H|H]; [discriminate H|]);
                               exact H|]).
    constructor.
  - intros a. destruct a; cbv; tauto.
  - reflexivity.
  - reflexivity.
  - intros d category H Hk. each_registration H; simpl in Hk; try discriminate Hk;
      split; reflexivity.
Qed.

Lemma actions_registered_once_witness :
  (descriptor PauseAction None None None).(keybindingContext) = None.
Proof.
  apply (proj2 (proj2 (proj2 (proj2 actions_registered_once)))
           (descriptor PauseAction None None None) debugCategory).
  - cbv. do 8 right. left. reflexivity.
  - reflexivity.
Defined.

End DebugContributionFacts.
